(** * ostree-delta.py: the static-delta orchestrator

    A shallow embedding of [ostree/ostree-delta.py].  The script is a
    sequence of external-tool invocations stitched together with text
    parsing, so the embedding has three layers:

    - [Py]: the Python built-ins the script relies on ([str.rstrip],
      [str.splitlines], [str.split], [str.startswith], [list.remove],
      [repr], [os.path.join]);
    - an environment interface ([Sys]) for what the script asks of the
      interpreter and of the operating system (printing, warnings,
      subprocesses, the file system), any call of which may raise, its
      special case [OS] of an environment in which every call
      succeeds, and a monad [M] threading the world, collecting the
      observable events and propagating Python exceptions;
    - the functions of the script, under their own names.

    Properties of the normal path (which commands run, in which order,
    with which arguments) are stated for an environment in which every
    call succeeds: their sections have an [OS] in their context.
    Properties of how a run ends are stated for any environment: their
    sections have a [Sys] in their context.  The command line is taken
    as parsed; signals and exhaustion of memory are not modelled, and
    a subprocess that is waited for without timeout is taken to exit.

    A Python [str] is modelled as a [string], one [ascii] per code point
    (the code points below 256). *)

From Stdlib Require Import String Ascii List Bool Arith NArith ZArith Lia.
From Stdlib Require Import DecimalString.
Import ListNotations.
Local Open Scope list_scope.
Local Open Scope string_scope.

(* ================================================================= *)
(** ** Python built-ins *)

Module Py.

(** [str.isspace] on one character: the code points below 256 that
    CPython treats as whitespace. *)
Definition isspace (c : ascii) : bool :=
  let n := N_of_ascii c in
  ((9 <=? n) && (n <=? 13) || (28 <=? n) && (n <=? 32)
   || (n =? 133) || (n =? 160))%N.

(** Line boundaries of [str.splitlines]. *)
Definition islinebreak (c : ascii) : bool :=
  let n := N_of_ascii c in
  ((10 <=? n) && (n <=? 13) || (28 <=? n) && (n <=? 30) || (n =? 133))%N.

Definition LF : ascii := "010"%char.
Definition CR : ascii := "013"%char.

Definition is_empty (s : string) : bool :=
  match s with EmptyString => true | String _ _ => false end.

(** [s.rstrip()] *)
Fixpoint rstrip (s : string) : string :=
  match s with
  | EmptyString => EmptyString
  | String c rest =>
      let r := rstrip rest in
      if is_empty r && isspace c then EmptyString else String c r
  end.

(** [s.lstrip()] *)
Fixpoint lstrip (s : string) : string :=
  match s with
  | EmptyString => EmptyString
  | String c rest => if isspace c then lstrip rest else s
  end.

(** [s.strip()] *)
Definition strip (s : string) : string := rstrip (lstrip s).

(** [s.splitlines()]: a line ends at a line boundary, ["\r\n"] counts
    as one boundary, and a final line without boundary is kept unless it
    is empty. *)
Fixpoint splitlines (s : string) : list string :=
  match s with
  | EmptyString => []
  | String c rest =>
      if islinebreak c then
        EmptyString ::
          match rest with
          | String c' rest' =>
              if Ascii.eqb c CR && Ascii.eqb c' LF
              then splitlines rest' else splitlines rest
          | EmptyString => splitlines rest
          end
      else
        match splitlines rest with
        | [] => [String c EmptyString]
        | l :: ls => String c l :: ls
        end
  end.

(** [s.startswith(p)] *)
Definition startswith (s p : string) : bool := String.prefix p s.

(** [s.split()]: the maximal runs of non-whitespace characters. *)
Fixpoint split (s : string) : list string :=
  match s with
  | EmptyString => []
  | String c rest =>
      if isspace c then split rest
      else
        match rest with
        | EmptyString => [String c EmptyString]
        | String c' _ =>
            if isspace c' then String c EmptyString :: split rest
            else
              match split rest with
              | [] => [String c EmptyString]
              | w :: ws => String c w :: ws
              end
        end
  end.

(** [s.split(sep, 1)] for a one-character separator: [None] when [sep]
    does not occur (the result is then the one-element list [[s]]),
    otherwise the text before and after its first occurrence. *)
Fixpoint split_once (sep : ascii) (s : string) : option (string * string) :=
  match s with
  | EmptyString => None
  | String c rest =>
      if Ascii.eqb c sep then Some (EmptyString, rest)
      else
        match split_once sep rest with
        | Some (a, b) => Some (String c a, b)
        | None => None
        end
  end.

(** [l.remove(x)] on a list that contains [x]: the first occurrence
    goes. *)
Fixpoint list_remove (x : string) (l : list string) : list string :=
  match l with
  | [] => []
  | y :: l' => if String.eqb x y then l' else y :: list_remove x l'
  end.

(** [os.path.join(a, b)] on POSIX. *)
Definition ends_with_slash (s : string) : bool :=
  match get (String.length s - 1) s with
  | Some c => Ascii.eqb c "/"%char
  | None => false
  end.

Definition path_join (a b : string) : string :=
  if startswith b "/" then b
  else if is_empty a || ends_with_slash a then a ++ b
  else a ++ "/" ++ b.

(** *** [repr] of strings and of lists of strings *)

Definition hexdigit (n : N) : ascii :=
  ascii_of_N (if (n <? 10)%N then 48 + n else 87 + n)%N.

Definition contains (c : ascii) (s : string) : bool :=
  existsb (Ascii.eqb c) (list_ascii_of_string s).

(** Code points below 256 that [repr] copies unescaped. *)
Definition isprintable (c : ascii) : bool :=
  let n := N_of_ascii c in
  ((32 <=? n) && (n <? 127) || (161 <=? n) && negb (n =? 173))%N.

Definition repr_char (quote c : ascii) : string :=
  if Ascii.eqb c quote || Ascii.eqb c "\"%char then
    String "\"%char (String c EmptyString)
  else if Ascii.eqb c "009"%char then "\t"
  else if Ascii.eqb c LF then "\n"
  else if Ascii.eqb c CR then "\r"
  else if isprintable c then String c EmptyString
  else
    let n := N_of_ascii c in
    String "\"%char
      (String "x"%char
         (String (hexdigit (n / 16)) (String (hexdigit (n mod 16)) EmptyString))).

Definition dquote : ascii := ascii_of_N 34.
Definition squote : ascii := "'"%char.

Definition repr_str (s : string) : string :=
  let quote :=
    if contains squote s && negb (contains dquote s) then dquote else squote in
  String quote
    (String.concat EmptyString (map (repr_char quote) (list_ascii_of_string s))
     ++ String quote EmptyString).

(** [repr] of a list, from the [repr] of its items. *)
Definition repr_items (items : list string) : string :=
  "[" ++ String.concat ", " items ++ "]".

Definition repr_list (l : list string) : string :=
  "[" ++ String.concat ", " (map repr_str l) ++ "]".

(** [repr] of the [pathlib.Path] whose string is [p]. *)
Definition repr_path (p : string) : string :=
  "PosixPath(" ++ repr_str p ++ ")".

End Py.

Definition nl : string := String Py.LF EmptyString.
Definition tab : string := String "009"%char EmptyString.
Definition dq : string := String Py.dquote EmptyString.

(* ================================================================= *)
(** ** The environment and the monad *)

(** What a call into the standard library can raise by itself:
    [OSError], with the name of its class ([FileNotFoundError],
    [FileExistsError], [PermissionError], [BrokenPipeError], ...);
    [UnicodeError], with the name of its class ([UnicodeDecodeError]
    when the output of a subprocess cannot be decoded,
    [UnicodeEncodeError] when a text cannot be printed); or the warning
    itself, when the interpreter turns warnings into errors. *)
Inductive failure : Type :=
| OSError (class_name : string)
| UnicodeError (class_name : string)
| UserWarning (message : string).

(** Exceptions the script raises or lets escape. *)
Inductive exn : Type :=
| SystemExit (code : Z)
| ValueError (message : string)
| IndexError
| NameError (name : string)
| TimeoutExpired
| OfEnvironment (f : failure).

Inductive result (A : Type) : Type :=
| Return (a : A)
| Raise (e : exn).
Arguments Return {A} a.
Arguments Raise {A} e.

(** What a run does that can be observed from outside, in order. *)
Inductive event : Type :=
| Printed (text : string)
| Warn (message : string)
| Popen (command : list string)
| Kill (command : list string)
| Makedirs (path : string)
| WriteFile (path content : string).

(** A started subprocess: the time it needs to exit by itself, what
    [communicate] collects when it does (standard output, standard error
    and the world it leaves), and what is collected when it is killed
    first.  Every subprocess is taken to exit by itself eventually:
    [communicate()] without timeout blocks until then. *)
Record process (World : Type) : Type := {
  duration : N;
  completed : string * string * World;
  killed : string * string * World
}.
Arguments duration {World} p.
Arguments completed {World} p.
Arguments killed {World} p.

(** An environment in which every call succeeds.  [spawn] is
    [subprocess.Popen]. *)
Class OS (World : Type) : Type := {
  spawn : list string -> World -> process World;
  path_exists : string -> World -> bool;
  path_is_dir : string -> World -> bool;
  makedirs : string -> World -> World;
  write_file : string -> string -> World -> World
}.

(** The outcome of a call that may fail: its value and the world it
    leaves, or what it raises and the world it leaves. *)
Inductive outcome (A World : Type) : Type :=
| Done (a : A) (w : World)
| Fails (f : failure) (w : World).
Arguments Done {A World} a w.
Arguments Fails {A World} f w.

(** A started subprocess in general: [communicate] may fail. *)
Record subprocess (World : Type) : Type := {
  needs : N;
  exits : outcome (string * string) World;
  dies : outcome (string * string) World
}.
Arguments needs {World} s.
Arguments exits {World} s.
Arguments dies {World} s.

(** What the script asks of its environment, in general: [print],
    [warnings.warn], [subprocess.Popen], [Path.exists], [Path.is_dir],
    [os.makedirs] and writing a file, each of which may raise. *)
Class Sys (World : Type) : Type := {
  sys_print : string -> World -> outcome unit World;
  sys_warn : string -> World -> outcome unit World;
  sys_popen : list string -> World -> outcome (subprocess World) World;
  sys_exists : string -> World -> failure + bool;
  sys_is_dir : string -> World -> failure + bool;
  sys_makedirs : string -> World -> outcome unit World;
  sys_write : string -> string -> World -> outcome unit World
}.

(** An environment in which every call succeeds is an environment. *)
Definition total {World : Type} (os : OS World) : Sys World := {|
  sys_print := fun _ w => Done tt w;
  sys_warn := fun _ w => Done tt w;
  sys_popen := fun command w =>
    Done {| needs := duration (spawn command w);
            exits := Done (fst (completed (spawn command w)))
                          (snd (completed (spawn command w)));
            dies := Done (fst (killed (spawn command w)))
                         (snd (killed (spawn command w))) |} w;
  sys_exists := fun path w => inr (path_exists path w);
  sys_is_dir := fun path w => inr (path_is_dir path w);
  sys_makedirs := fun path w => Done tt (makedirs path w);
  sys_write := fun path text w => Done tt (write_file path text w)
|}.
Coercion total : OS >-> Sys.
#[global] Existing Instance total.

(** The result of [parser.parse_known_args()]'s first component.  Paths
    are already resolved ([_str_to_resolved_path]) and are represented
    by their string form; two resolved paths are equal when their
    strings are. *)
Module Args.
Record t : Type := {
  repo : string;
  output : string;
  update_repo : option string;
  machine : option string;
  to_sha : option string;
  from_sha : option string;
  generate_bin : bool;
  empty : bool
}.
End Args.

(** [warning_on_one_line(message, category, filename, lineno)], with
    [category] given by its name. *)
Definition warning_on_one_line (message category filename : string)
    (lineno : N) : string :=
  filename ++ ":" ++ NilEmpty.string_of_uint (N.to_uint lineno) ++ ": "
  ++ category ++ ": " ++ message ++ nl.

(** The names bound at module level in [ostree-delta.py]: its imports
    and its functions.  A global name that is neither among them nor a
    built-in raises [NameError] when it is evaluated. *)
Definition module_globals : list string :=
  [ "argparse"; "os"; "pathlib"; "shutil"; "subprocess"; "sys"; "warnings";
    "tarfile"; "warning_on_one_line"; "warning"; "_execute_command";
    "_determine_machine_from_repo"; "_get_data_from_repo";
    "_get_shas_from_repo"; "_get_version_from_repo"; "_rev_parse_in_repo";
    "_get_date_from_repo"; "_generate_metadata"; "_generate_tarball";
    "_transfer_sha_between_repos"; "_generate_static_delta_between_shas";
    "_str_to_resolved_path"; "ensure_is_directory"; "_parse_args"; "main" ].

(** The loop of [_determine_machine_from_repo]:
    [for ref in output: if ref.startswith("ostree"): output.remove(ref)].
    The list iterator holds an index [i] into the list that the body
    mutates; it stops when [i] reaches the current length. *)
Fixpoint for_ref_in_output (fuel i : nat) (output : list string) : list string :=
  match fuel with
  | O => output
  | S fuel' =>
      match nth_error output i with
      | None => output
      | Some ref =>
          if Py.startswith ref "ostree"
          then for_ref_in_output fuel' (S i) (Py.list_remove ref output)
          else for_ref_in_output fuel' (S i) output
      end
  end.

(** The index grows by one per iteration and the list never grows, so
    [length output] iterations are always enough (see
    [for_ref_in_output_fuel]). *)
Definition remove_ostree_refs (output : list string) : list string :=
  for_ref_in_output (List.length output) 0 output.

(** The value one log line contributes in [_get_data_from_repo]:
    [line.split(":", 1)[1].strip()] for ["Date"], [line.split()[1]]
    otherwise; both subscripts raise [IndexError] out of range. *)
Definition extract_value (data line : string) : result string :=
  if String.eqb data "Date" then
    match Py.split_once ":"%char line with
    | Some (_, rest) => Return (Py.strip rest)
    | None => Raise IndexError
    end
  else
    match Py.split line with
    | _ :: v :: _ => Return v
    | _ => Raise IndexError
    end.

(** The loop of [_get_data_from_repo] over the log lines. *)
Fixpoint for_line_in_output (data : string) (output : list string)
    (values : list string) : result (list string) :=
  match output with
  | [] => Return values
  | line :: rest =>
      if Py.startswith line data then
        match extract_value data line with
        | Return v => for_line_in_output data rest (values ++ [v])%list
        | Raise e => Raise e
        end
      else for_line_in_output data rest values
  end.

(** The text [_generate_metadata] writes. *)
Definition metadata_text (from_sha to_sha : string) : string :=
  ("From-sha:" ++ from_sha ++ nl) ++ ("To-sha:" ++ to_sha ++ nl).

Section Orchestrator.

Context {World : Type} {os : Sys World}.

(** A computation runs in a world and yields a result, the world it
    leaves and the events it emitted, in order. *)
Definition M (A : Type) : Type := World -> result A * World * list event.

Definition ret {A} (a : A) : M A := fun w => (Return a, w, []).

Definition raise {A} (e : exn) : M A := fun w => (Raise e, w, []).

Definition bind {A B} (m : M A) (f : A -> M B) : M B :=
  fun w =>
    match m w with
    | (Return a, w1, t1) =>
        match f a w1 with
        | (r, w2, t2) => (r, w2, (t1 ++ t2)%list)
        end
    | (Raise e, w1, t1) => (Raise e, w1, t1)
    end.

(** A call that may fail: its value and the events [done], or the
    exception it raises. *)
Definition call {A} (o : outcome A World) (done : list event)
  : result A * World * list event :=
  match o with
  | Done a w' => (Return a, w', done)
  | Fails f w' => (Raise (OfEnvironment f), w', [])
  end.

Definition lift {A} (r : result A) : M A := fun w => (r, w, []).

(** [try: m  except subprocess.TimeoutExpired: handler] *)
Definition try_except_timeout {A} (m : M A) (handler : M A) : M A :=
  fun w =>
    match m w with
    | (Raise TimeoutExpired, w1, t1) =>
        match handler w1 with
        | (r, w2, t2) => (r, w2, (t1 ++ t2)%list)
        end
    | other => other
    end.

Notation "x <- m ;; k" := (bind m (fun x => k))
  (at level 61, m at next level, right associativity).
Notation "m ;; k" := (bind m (fun _ => k))
  (at level 61, right associativity).

(** [print(text)] *)
Definition print (text : string) : M unit :=
  fun w => call (sys_print text w) [Printed text].

(** [for ref in output: print("\t\t{}".format(ref))] *)
Fixpoint print_refs (output : list string) : M unit :=
  match output with
  | [] => ret tt
  | ref :: rest => print (tab ++ tab ++ ref) ;; print_refs rest
  end.

(** [warning(message)]: [warnings.warn(message, stacklevel=2)]. *)
Definition warning (message : string) : M unit :=
  fun w => call (sys_warn message w) [Warn message].

(** Evaluating a global name: [NameError] unless the module binds it. *)
Definition load_global (name : string) : M unit :=
  if existsb (String.eqb name) module_globals then ret tt
  else raise (NameError name).

(** ["{}".format(timeout)] *)
Definition format_timeout (timeout : option N) : string :=
  match timeout with
  | None => "None"
  | Some t => NilEmpty.string_of_uint (N.to_uint t)
  end.

(** [subprocess.Popen(command, ...)] *)
Definition popen (command : list string) : M (subprocess World) :=
  fun w => call (sys_popen command w) [Popen command].

(** [p.communicate(timeout=timeout)] *)
Definition communicate (p : subprocess World) (timeout : option N)
  : M (string * string) :=
  fun w =>
    match timeout with
    | None => call (exits p) []
    | Some t =>
        if (t <? needs p)%N then (Raise TimeoutExpired, w, [])
        else call (exits p) []
    end.

(** [p.kill(); p.communicate()] *)
Definition kill_and_reap (command : list string) (p : subprocess World)
  : M (string * string) :=
  fun w =>
    match call (dies p) [] with
    | (r, w', t) => (r, w', Kill command :: t)
    end.

(** The body of [_execute_command], for a command that [print] shows
    as [shown] and that [Popen] gets as [command].  The two differ only
    for a command that holds a [pathlib.Path], which [print] shows as
    [PosixPath('...')] and which [Popen] gets as its string.  The
    handler of [TimeoutExpired] first evaluates the global name
    [ExecuteHelper], whose [_print] it means to call; what follows is
    reached only if the module binds that name. *)
Definition execute_shown (shown : string) (command : list string)
    (timeout : option N) : M string :=
  print shown ;;
  p <- popen command ;;
  oe <- try_except_timeout
          (communicate p timeout)
          (load_global "ExecuteHelper" ;;
           print ("Timed out after " ++ format_timeout timeout ++ "s") ;;
           kill_and_reap command p) ;;
  print (snd oe) ;;
  ret (fst oe).

(** [_execute_command] on a list of [str]. *)
Definition _execute_command (command : list string) (timeout : option N)
  : M string :=
  execute_shown (Py.repr_list command) command timeout.

Definition _determine_machine_from_repo (repo : string) : M (option string) :=
  let command := ["ostree"; "--repo=" ++ repo; "refs"] in
  out <- _execute_command command None ;;
  let output := Py.splitlines (Py.rstrip out) in
  let output := remove_ostree_refs output in
  match output with
  | [machine] => ret (Some machine)
  | _ =>
      print ("Error:" ++ tab ++ "Could not determine the machine name from the repo") ;;
      print (tab ++ "Possible values are:") ;;
      print_refs output ;;
      ret None
  end.

Definition _get_data_from_repo (repo machine data : string)
  : M (option (list string)) :=
  let command := ["ostree"; "--repo=" ++ repo; "log"; machine] in
  out <- _execute_command command None ;;
  let output := Py.splitlines (Py.rstrip out) in
  values <- lift (for_line_in_output data output []) ;;
  if (0 <? List.length values)%nat then ret (Some values) else ret None.

Definition _get_shas_from_repo (repo machine : string) :=
  _get_data_from_repo repo machine "commit".

Definition _get_version_from_repo (repo machine : string) :=
  _get_data_from_repo repo machine "Version".

Definition _get_date_from_repo (repo machine : string) :=
  _get_data_from_repo repo machine "Date".

Definition _rev_parse_in_repo (repo : string) (rev : option string)
  : M (option string) :=
  match rev with
  | None => ret None
  | Some rev =>
      let command := ["ostree"; "--repo=" ++ repo; "rev-parse"; rev] in
      out <- _execute_command command None ;;
      match Py.splitlines (Py.rstrip out) with
      | line :: _ => ret (Some line)
      | [] => ret None
      end
  end.

Definition _generate_metadata (outputpath from_sha to_sha : string) : M unit :=
  let path := Py.path_join outputpath "metadata" in
  let text := metadata_text from_sha to_sha in
  fun w => call (sys_write path text w) [WriteFile path text].

(** The [tar] command holds [outputpath] itself, a [pathlib.Path], as
    the argument of [--directory]. *)
Definition _generate_tarball (outputpath : string) : M unit :=
  let command :=
    ["tar"; "-cf"; outputpath ++ "/data.tar"; "--directory"; outputpath;
     "--exclude=./data.tar"; "."] in
  let shown :=
    Py.repr_items
      [Py.repr_str "tar"; Py.repr_str "-cf";
       Py.repr_str (outputpath ++ "/data.tar"); Py.repr_str "--directory";
       Py.repr_path outputpath; Py.repr_str "--exclude=./data.tar";
       Py.repr_str "."] in
  out <- execute_shown shown command None ;;
  print out ;;
  let command := ["gzip"; "--force"; outputpath ++ "/data.tar"] in
  out <- _execute_command command None ;;
  print out.

Definition _transfer_sha_between_repos (source_repo dest_repo sha : string)
  : M unit :=
  let command :=
    ["ostree"; "--repo=" ++ dest_repo; "pull-local"; source_repo; sha] in
  out <- _execute_command command None ;;
  print out.

Definition _generate_static_delta_between_shas
    (repo outputpath machine to_sha : string) (from_sha : option string)
  : M unit :=
  match from_sha with
  | None => _generate_metadata outputpath machine to_sha
  | Some from_sha => _generate_metadata outputpath from_sha to_sha
  end ;;
  let output_filename := Py.path_join outputpath "superblock" in
  let command :=
    ["ostree"; "--repo=" ++ repo; "static-delta"; "generate";
     "--max-chunk-size=2048"; "--min-fallback-size=0";
     "--filename=" ++ output_filename; "--to"; to_sha] in
  let command :=
    match from_sha with
    | None => (command ++ ["--empty"])%list
    | Some from_sha => (command ++ ["--from"; from_sha])%list
    end in
  out <- _execute_command command None ;;
  print out ;;
  _generate_tarball outputpath.

(** [path.exists()] and [path.is_dir()] *)
Definition path_query (query : string -> World -> failure + bool)
    (path : string) : M bool :=
  fun w =>
    match query path w with
    | inr b => (Return b, w, [])
    | inl f => (Raise (OfEnvironment f), w, [])
    end.

Definition ensure_is_directory (path : string) : M unit :=
  found <- path_query sys_exists path ;;
  if negb found then
    raise (ValueError (dq ++ path ++ dq ++ " does not exist"))
  else
    is_dir <- path_query sys_is_dir path ;;
    if negb is_dir then
      raise (ValueError (dq ++ path ++ dq ++ " is not a directory"))
    else ret tt.

(** [_parse_args], from the pair [parser.parse_known_args()] returned. *)
Definition _parse_args (parsed : Args.t * list string) : M Args.t :=
  let '(args, unknown) := parsed in
  (if (0 <? List.length unknown)%nat
   then warning ("unsupported arguments: " ++ Py.repr_list unknown)
   else ret tt) ;;
  ensure_is_directory (Args.repo args) ;;
  ret args.

(** [os.makedirs(path, exist_ok=True)] *)
Definition os_makedirs (path : string) : M unit :=
  fun w => call (sys_makedirs path w) [Makedirs path].

(** [sys.exit(code)] and the built-in [exit(code)]. *)
Definition sys_exit {A} (code : Z) : M A := raise (SystemExit code).

Definition main (parsed : Args.t * list string) : M unit :=
  args <- _parse_args parsed ;;
  os_makedirs (Args.output args) ;;
  let repo := Args.repo args in
  machine <- match Args.machine args with
             | None => _determine_machine_from_repo repo
             | Some m => ret (Some m)
             end ;;
  match machine with
  | None => sys_exit 2
  | Some machine =>
      let update_repo :=
        match Args.update_repo args with
        | None => repo
        | Some u => u
        end in
      let to_rev :=
        match Args.to_sha args with
        | None => machine
        | Some t => t
        end in
      let from_rev :=
        if Args.empty args then None
        else
          match Args.from_sha args with
          | None =>
              if String.eqb repo update_repo then Some (machine ++ "^")
              else Some machine
          | Some f => Some f
          end in
      to_sha <- _rev_parse_in_repo update_repo (Some to_rev) ;;
      match to_sha with
      | None =>
          warning ("rev " ++ to_rev ++ " not found in " ++ update_repo) ;;
          sys_exit 1
      | Some to_sha =>
          from_sha <- _rev_parse_in_repo repo from_rev ;;
          match from_sha, from_rev with
          | None, Some from_rev =>
              warning ("rev " ++ from_rev ++ " not found in " ++ repo) ;;
              sys_exit 1
          | _, _ =>
              (if negb (String.eqb repo update_repo)
               then _transfer_sha_between_repos update_repo repo to_sha
               else ret tt) ;;
              _generate_static_delta_between_shas
                repo (Args.output args) machine to_sha from_sha ;;
              if Args.generate_bin args then
                let command :=
                  ["mv"; Args.output args ++ "/data.tar.gz";
                   Args.output args ++ "/data.bin"] in
                out <- _execute_command command None ;;
                print out
              else ret tt
          end
      end
  end.

(** [if __name__ == "__main__": sys.exit(main())]; [main] returns
    [None], which [sys.exit] turns into status 0. *)
Definition script (parsed : Args.t * list string) : M unit :=
  main parsed ;;
  sys_exit 0.

End Orchestrator.

Arguments M World A : clear implicits.

(** The exit status of the interpreter for the way the script ended:
    the code of [SystemExit], and 1 for any other exception that
    escapes. *)
Definition exit_status {A} (r : result A) : Z :=
  match r with
  | Return _ => 0
  | Raise (SystemExit code) => code
  | Raise _ => 1
  end.

(** The commands of the script, by what they do. *)
Definition refs_command (repo : string) : list string :=
  ["ostree"; "--repo=" ++ repo; "refs"].
Definition log_command (repo machine : string) : list string :=
  ["ostree"; "--repo=" ++ repo; "log"; machine].
Definition rev_parse_command (repo rev : string) : list string :=
  ["ostree"; "--repo=" ++ repo; "rev-parse"; rev].
Definition pull_local_command (source_repo dest_repo sha : string) : list string :=
  ["ostree"; "--repo=" ++ dest_repo; "pull-local"; source_repo; sha].
Definition static_delta_command (repo outputpath to_sha : string)
    (tail : list string) : list string :=
  List.app
    ["ostree"; "--repo=" ++ repo; "static-delta"; "generate";
     "--max-chunk-size=2048"; "--min-fallback-size=0";
     "--filename=" ++ Py.path_join outputpath "superblock"; "--to"; to_sha]
    tail.
(** A command is a transfer between repositories when it runs
    [ostree ... pull-local]. *)
Definition is_pull_local (command : list string) : bool :=
  match command with
  | tool :: _ :: subcommand :: _ =>
      String.eqb tool "ostree" && String.eqb subcommand "pull-local"
  | _ => false
  end.
Definition tar_command (outputpath : string) : list string :=
  ["tar"; "-cf"; outputpath ++ "/data.tar"; "--directory"; outputpath;
   "--exclude=./data.tar"; "."].
Definition gzip_command (outputpath : string) : list string :=
  ["gzip"; "--force"; outputpath ++ "/data.tar"].
Definition mv_command (outputpath : string) : list string :=
  ["mv"; outputpath ++ "/data.tar.gz"; outputpath ++ "/data.bin"].

(* ================================================================= *)
(** ** Views of [main] used to state its properties *)

Section MainViews.

Context {World : Type} {os : Sys World}.

Notation "x <- m ;; k" := (bind m (fun x => k))
  (at level 61, m at next level, right associativity).
Notation "m ;; k" := (bind m (fun _ => k))
  (at level 61, right associativity).

(** [update_repo], [to_rev] and [from_rev] as [main] computes them. *)
Definition update_repo_of (args : Args.t) : string :=
  match Args.update_repo args with
  | None => Args.repo args
  | Some u => u
  end.

Definition to_rev_of (args : Args.t) (machine : string) : string :=
  match Args.to_sha args with
  | None => machine
  | Some t => t
  end.

Definition from_rev_of (args : Args.t) (machine : string) : option string :=
  if Args.empty args then None
  else
    match Args.from_sha args with
    | None =>
        if String.eqb (Args.repo args) (update_repo_of args)
        then Some (machine ++ "^")
        else Some machine
    | Some f => Some f
    end.

(** [main] up to the machine name. *)
Definition main_machine (parsed : Args.t * list string)
  : M World (option string) :=
  args <- _parse_args parsed ;;
  os_makedirs (Args.output args) ;;
  match Args.machine args with
  | None => _determine_machine_from_repo (Args.repo args)
  | Some m => ret (Some m)
  end.

(** [main] from the transfer between the repositories to its end. *)
Definition main_generate (args : Args.t) (machine to_sha : string)
    (from_sha : option string) : M World unit :=
  (if negb (String.eqb (Args.repo args) (update_repo_of args))
   then _transfer_sha_between_repos (update_repo_of args) (Args.repo args) to_sha
   else ret tt) ;;
  _generate_static_delta_between_shas
    (Args.repo args) (Args.output args) machine to_sha from_sha ;;
  if Args.generate_bin args then
    out <- _execute_command
             ["mv"; Args.output args ++ "/data.tar.gz";
              Args.output args ++ "/data.bin"] None ;;
    print out
  else ret tt.

(** [main] from the resolution of [from_rev] to its end. *)
Definition main_resolve_from (args : Args.t) (machine to_sha : string)
    (from_rev : option string) : M World unit :=
  from_sha <- _rev_parse_in_repo (Args.repo args) from_rev ;;
  match from_sha, from_rev with
  | None, Some from_rev =>
      warning ("rev " ++ from_rev ++ " not found in " ++ Args.repo args) ;;
      sys_exit 1
  | _, _ => main_generate args machine to_sha from_sha
  end.

(** [main] from the resolution of [to_rev] to its end. *)
Definition main_resolve (args : Args.t) (machine : string) : M World unit :=
  to_sha <- _rev_parse_in_repo (update_repo_of args) (Some (to_rev_of args machine)) ;;
  match to_sha with
  | None =>
      warning ("rev " ++ to_rev_of args machine ++ " not found in "
               ++ update_repo_of args) ;;
      sys_exit 1
  | Some to_sha =>
      main_resolve_from args machine to_sha (from_rev_of args machine)
  end.

(** How a run of [main] can end: without machine name, with a revision
    expression that does not resolve in its repository ([to_rev] in
    [update_repo], or a [from_rev] that is not [None] in [repo]), or
    with [main] returning. *)
Definition machine_undetermined (parsed : Args.t * list string) (w : World)
  : Prop :=
  exists w1 t1, main_machine parsed w = (Return None, w1, t1).

Definition revision_unresolved (parsed : Args.t * list string) (w : World)
  : Prop :=
  exists machine w1 t1,
    main_machine parsed w = (Return (Some machine), w1, t1)
    /\ let args := fst parsed in
       let resolve_to :=
         _rev_parse_in_repo (update_repo_of args)
           (Some (to_rev_of args machine)) in
       ((exists w2 t2, resolve_to w1 = (Return None, w2, t2))
        \/ (exists to_sha w2 t2 from_rev w3 t3,
              resolve_to w1 = (Return (Some to_sha), w2, t2)
              /\ from_rev_of args machine = Some from_rev
              /\ _rev_parse_in_repo (Args.repo args) (Some from_rev) w2
                 = (Return None, w3, t3))).



End MainViews.

Section Observations.

Context {World : Type} {os : OS World}.

(** What a subprocess run to its end gives: standard output, standard
    error and the world it leaves; and the events of
    [_execute_command] for it. *)
Definition stdout_of (command : list string) (w : World) : string :=
  fst (fst (completed (spawn command w))).
Definition stderr_of (command : list string) (w : World) : string :=
  snd (fst (completed (spawn command w))).
Definition world_after (command : list string) (w : World) : World :=
  snd (completed (spawn command w)).
Definition execute_events (command : list string) (w : World) : list event :=
  [Printed (Py.repr_list command); Popen command; Printed (stderr_of command w)].

(** The lines of standard output as the script reads them:
    [output.rstrip().splitlines()]. *)
Definition output_lines (command : list string) (w : World) : list string :=
  Py.splitlines (Py.rstrip (stdout_of command w)).

(** The resolved "from" hash and the world in which [main] finds
    itself once its revisions are resolved, [w1] being the world in
    which it starts to resolve them. *)
Definition resolved_from (args : Args.t) (machine : string) (w1 : World)
  : option string * World :=
  let w2 :=
    world_after
      (rev_parse_command (update_repo_of args) (to_rev_of args machine)) w1 in
  match from_rev_of args machine with
  | None => (None, w2)
  | Some from_rev =>
      let command := rev_parse_command (Args.repo args) from_rev in
      (hd_error (output_lines command w2), world_after command w2)
  end.

End Observations.

(** A run with the events [t0] that came before it. *)
Definition after {A World : Type} (t0 : list event)
    (run : result A * World * list event) : result A * World * list event :=
  let '(r, w, t) := run in (r, w, (t0 ++ t)%list).

(** The commands a trace started, in order. *)
Fixpoint commands (t : list event) : list (list string) :=
  match t with
  | [] => []
  | Popen command :: t' => command :: commands t'
  | _ :: t' => commands t'
  end.

(** The commands [main] starts once both revisions are resolved. *)
Definition generate_commands (args : Args.t) (to_sha : string)
    (from_sha : option string) : list (list string) :=
  ((if negb (String.eqb (Args.repo args) (update_repo_of args))
    then [pull_local_command (update_repo_of args) (Args.repo args) to_sha]
    else [])
   ++ [static_delta_command (Args.repo args) (Args.output args) to_sha
         match from_sha with
         | None => ["--empty"]
         | Some from_sha => ["--from"; from_sha]
         end;
       tar_command (Args.output args);
       gzip_command (Args.output args)]
   ++ (if Args.generate_bin args then [mv_command (Args.output args)] else []))%list.

(** No line boundary occurs in [s]. *)
Definition single_line (s : string) : bool :=
  forallb (fun c => negb (Py.islinebreak c)) (list_ascii_of_string s).

(** [s] without the prefix [p], when it starts with it. *)
Fixpoint strip_prefix (p s : string) : option string :=
  match p, s with
  | EmptyString, _ => Some s
  | String a p', String b s' => if Ascii.eqb a b then strip_prefix p' s' else None
  | String _ _, EmptyString => None
  end.

(** Modelled from the spec: the reader of the [metadata] file.  It
    belongs to the deploy step on the device and is not part of this
    script; the spec describes the file as a two-line text,
    [From-sha:<id>] then [To-sha:<id>], and the reader returns the two
    identifiers of a file of that shape. *)
Definition parse_metadata (text : string) : option (string * string) :=
  match Py.splitlines text with
  | [l1; l2] =>
      match strip_prefix "From-sha:" l1, strip_prefix "To-sha:" l2 with
      | Some from_id, Some to_id => Some (from_id, to_id)
      | _, _ => None
      end
  | _ => None
  end.

(* ================================================================= *)
(** ** A scripted environment, for concrete runs *)

(** The world is the list of files written so far, the latest first.
    Subprocesses answer on standard output as [answer] says, need
    [needs] units of time and have written nothing when killed; the
    directories are those [present] accepts. *)
Definition scripted (answer : list string -> string) (needs : N)
    (present : string -> bool) : OS (list (string * string)) := {|
  spawn := fun command w =>
    {| duration := needs;
       completed := (answer command, EmptyString, w);
       killed := (EmptyString, EmptyString, w) |};
  path_exists := fun p _ => present p;
  path_is_dir := fun p _ => present p;
  makedirs := fun _ w => w;
  write_file := fun p text w => (p, text) :: w
|}.

Fixpoint command_eqb (c1 c2 : list string) : bool :=
  match c1, c2 with
  | [], [] => true
  | a :: c1', b :: c2' => String.eqb a b && command_eqb c1' c2'
  | _, _ => false
  end.

(** The answer a table gives to a command; nothing when it has none. *)
Fixpoint answer_of (table : list (list string * string)) (command : list string)
  : string :=
  match table with
  | [] => EmptyString
  | (c, out) :: table' =>
      if command_eqb c command then out else answer_of table' command
  end.

Definition scripted_table (table : list (list string * string))
  : OS (list (string * string)) :=
  scripted (answer_of table) 10 (fun _ => true).

(** The scripted environment with two things that go wrong:
    [os.makedirs] raises [FileExistsError], as it does when the output
    path is a regular file, if [output_is_file] is set; and
    [subprocess.Popen] raises [FileNotFoundError] for the commands of
    [missing], as it does when the tool is not installed. *)
Definition scripted_failing (table : list (list string * string))
    (output_is_file : bool) (missing : list string -> bool)
  : Sys (list (string * string)) :=
  let os := total (scripted_table table) in
  {| sys_print := @sys_print _ os;
     sys_warn := @sys_warn _ os;
     sys_popen := fun command w =>
       if missing command then Fails (OSError "FileNotFoundError") w
       else @sys_popen _ os command w;
     sys_exists := @sys_exists _ os;
     sys_is_dir := @sys_is_dir _ os;
     sys_makedirs := fun path w =>
       if output_is_file then Fails (OSError "FileExistsError") w
       else @sys_makedirs _ os path w;
     sys_write := @sys_write _ os |}.

(** The repository of the spec's end-to-end scenario: refs
    [ostree/bootloader] and [myboard], whose tip is [abc123] and whose
    parent commit is [def456]; and a second repository [/update] whose
    [myboard] is at [fff999]. *)
Definition scenario : list (list string * string) :=
  [ (refs_command "/repo", "ostree/bootloader" ++ nl ++ "myboard" ++ nl);
    (rev_parse_command "/repo" "myboard", "abc123" ++ nl);
    (rev_parse_command "/repo" "myboard^", "def456" ++ nl);
    (rev_parse_command "/update" "myboard", "fff999" ++ nl) ].

Definition scenario_args : Args.t :=
  {| Args.repo := "/repo"; Args.output := "/out";
     Args.update_repo := None; Args.machine := None;
     Args.to_sha := None; Args.from_sha := None;
     Args.generate_bin := false; Args.empty := false |}.

Definition with_update_repo (args : Args.t) (u : string) : Args.t :=
  {| Args.repo := Args.repo args; Args.output := Args.output args;
     Args.update_repo := Some u; Args.machine := Args.machine args;
     Args.to_sha := Args.to_sha args; Args.from_sha := Args.from_sha args;
     Args.generate_bin := Args.generate_bin args; Args.empty := Args.empty args |}.

Definition with_empty (args : Args.t) (from_sha : option string) : Args.t :=
  {| Args.repo := Args.repo args; Args.output := Args.output args;
     Args.update_repo := Args.update_repo args; Args.machine := Args.machine args;
     Args.to_sha := Args.to_sha args; Args.from_sha := from_sha;
     Args.generate_bin := Args.generate_bin args; Args.empty := true |}.

Definition with_revisions (args : Args.t) (to_rev from_rev : string) : Args.t :=
  {| Args.repo := Args.repo args; Args.output := Args.output args;
     Args.update_repo := Args.update_repo args; Args.machine := Args.machine args;
     Args.to_sha := Some to_rev; Args.from_sha := Some from_rev;
     Args.generate_bin := Args.generate_bin args; Args.empty := Args.empty args |}.

(** A log of two commits, as [ostree log] prints it. *)
Definition scenario_log : list (list string * string) :=
  [ (log_command "/repo" "myboard",
     "commit abc123" ++ nl ++ "Date:  2021-03-04 10:20:30 +0000" ++ nl
     ++ "Version: 2.1" ++ nl ++ nl
     ++ "commit def456" ++ nl ++ "Date:  2021-03-01 08:00:00 +0000" ++ nl
     ++ "Version: 2.0" ++ nl) ].

(* ================================================================= *)
(** ** Vocabulary for the properties of the script *)

(** A ref of the listing is a candidate for the machine name when it
    does not start with [ostree]. *)
Definition is_candidate (ref : string) : bool :=
  negb (Py.startswith ref "ostree").

Definition candidates (output : list string) : list string :=
  filter is_candidate output.

(** No two refs in a row start with [ostree]. *)
Fixpoint no_adjacent_ostree (output : list string) : bool :=
  match output with
  | x :: (y :: _) as rest =>
      (is_candidate x || is_candidate y) && no_adjacent_ostree rest
  | _ => true
  end.

(** The files a trace wrote, in order. *)
Fixpoint writes (t : list event) : list (string * string) :=
  match t with
  | [] => []
  | WriteFile path content :: t' => (path, content) :: writes t'
  | _ :: t' => writes t'
  end.

(** The directories a trace created, in order. *)
Fixpoint created (t : list event) : list string :=
  match t with
  | [] => []
  | Makedirs path :: t' => path :: created t'
  | _ :: t' => created t'
  end.

(** A command only asks the repository: [ostree ... refs] or
    [ostree ... rev-parse]. *)
Definition is_query (command : list string) : bool :=
  match command with
  | tool :: _ :: subcommand :: _ =>
      String.eqb tool "ostree"
      && (String.eqb subcommand "refs" || String.eqb subcommand "rev-parse")
  | _ => false
  end.

(** A trace that wrote nothing and whose commands only asked the
    repository. *)
Definition quiet (t : list event) : Prop :=
  writes t = [] /\ forallb is_query (commands t) = true.

(** An exception raised by a call into the operating system. *)
Definition environment_error (e : exn) : Prop :=
  exists f, e = OfEnvironment f.

(** The [ValueError] of [ensure_is_directory] for [path]. *)
Definition directory_error (path : string) (e : exn) : Prop :=
  e = ValueError (dq ++ path ++ dq ++ " does not exist")
  \/ e = ValueError (dq ++ path ++ dq ++ " is not a directory").


(** Every run of [m] has a trace in [ok_trace] and raises, if it
    raises, an exception in [ok_exn]. *)
Definition behaves {A World : Type} (m : M World A)
    (ok_exn : exn -> Prop) (ok_trace : list event -> Prop) : Prop :=
  forall w r w' t,
    m w = (r, w', t) -> ok_trace t /\ (forall e, r = Raise e -> ok_exn e).

(** Every character of [s] is whitespace. *)
Definition all_space (s : string) : bool :=
  forallb Py.isspace (list_ascii_of_string s).

(** [s] is a word: not empty and without whitespace. *)
Definition is_word (s : string) : bool :=
  negb (Py.is_empty s)
  && forallb (fun c => negb (Py.isspace c)) (list_ascii_of_string s).

(* ================================================================= *)
(** ** The built-ins on small inputs *)

Example splitlines_refs :
  Py.splitlines (Py.rstrip ("ostree/bootloader" ++ nl ++ "myboard" ++ nl))
  = ["ostree/bootloader"; "myboard"].
Proof. reflexivity. Qed.

Example splitlines_crlf :
  Py.splitlines ("a" ++ String Py.CR nl ++ nl ++ "b") = ["a"; EmptyString; "b"].
Proof. reflexivity. Qed.

Example split_tokens :
  Py.split ("commit  abc123 " ++ tab ++ "x") = ["commit"; "abc123"; "x"].
Proof. reflexivity. Qed.

Example repr_list_quotes :
  Py.repr_list ["--foo"; "it's"] = "['--foo', " ++ dq ++ "it's" ++ dq ++ "]".
Proof. reflexivity. Qed.

Example warning_line :
  warning_on_one_line "rev myboard not found in /repo" "UserWarning"
    "ostree-delta.py" 398
  = "ostree-delta.py:398: UserWarning: rev myboard not found in /repo" ++ nl.
Proof. reflexivity. Qed.

Example path_join_metadata : Py.path_join "/out" "metadata" = "/out/metadata".
Proof. reflexivity. Qed.

Example remove_ostree_refs_one :
  remove_ostree_refs ["ostree/bootloader"; "myboard"] = ["myboard"].
Proof. reflexivity. Qed.

(* ================================================================= *)
(** ** The monad *)

Section Runs.

Context {World : Type} {os : Sys World}.

Lemma bind_return {A B} (m : M World A) (f : A -> M World B) w a w1 t1 :
  m w = (Return a, w1, t1) ->
  bind m f w = after t1 (f a w1).
Proof.
  intros H. unfold bind, after. rewrite H. destruct (f a w1) as [[r w2] t2].
  reflexivity.
Qed.

Lemma bind_raise {A B} (m : M World A) (f : A -> M World B) w e w1 t1 :
  m w = (Raise e, w1, t1) ->
  bind m f w = (Raise e, w1, t1).
Proof. intros H. unfold bind. rewrite H. reflexivity. Qed.

Lemma after_after {A} t0 t1 (run : result A * World * list event) :
  after t0 (after t1 run) = after (t0 ++ t1)%list run.
Proof. destruct run as [[r w] t]. simpl. now rewrite app_assoc. Qed.

Lemma after_nil {A} (run : result A * World * list event) :
  after [] run = run.
Proof. destruct run as [[r w] t]. reflexivity. Qed.

Lemma commands_app t1 t2 :
  commands (t1 ++ t2)%list = (commands t1 ++ commands t2)%list.
Proof.
  induction t1 as [|e t1 IH]; simpl; [reflexivity|].
  destruct e; simpl; now rewrite IH.
Qed.

Lemma rev_parse_none repo w :
  _rev_parse_in_repo repo None w = (Return None, w, []).
Proof. reflexivity. Qed.

Lemma bind_assoc {A B C} (m : M World A) (f : A -> M World B)
    (g : B -> M World C) w :
  bind (bind m f) g w = bind m (fun a => bind (f a) g) w.
Proof.
  unfold bind.
  destruct (m w) as [[[a|e] w1] t1]; [|reflexivity].
  destruct (f a w1) as [[[b|e] w2] t2]; [|reflexivity].
  destruct (g b w2) as [[r w3] t3].
  now rewrite app_assoc.
Qed.

Lemma bind_ext_on {A B} (m : M World A) (f g : A -> M World B) w :
  (forall a w1 t1, m w = (Return a, w1, t1) -> f a w1 = g a w1) ->
  bind m f w = bind m g w.
Proof.
  intros H. unfold bind.
  destruct (m w) as [[[a|e] w1] t1]; [|reflexivity].
  now rewrite (H a w1 t1 eq_refl).
Qed.

Lemma ensure_is_directory_world path w r w' t :
  ensure_is_directory path w = (r, w', t) -> w' = w.
Proof.
  unfold ensure_is_directory, bind, path_query, raise, ret.
  destruct (sys_exists path w) as [f|[|]]; simpl;
    try (intros H; inversion H; reflexivity).
  destruct (sys_is_dir path w) as [f|[|]]; simpl;
    intros H; inversion H; reflexivity.
Qed.

Lemma parse_args_returns args unknown w a w1 t1 :
  _parse_args (args, unknown) w = (Return a, w1, t1) ->
  a = args.
Proof.
  unfold _parse_args, bind.
  destruct ((if (0 <? List.length unknown)%nat
             then warning ("unsupported arguments: " ++ Py.repr_list unknown)
             else ret tt) w) as [[[[]|e] w0] t0]; [|discriminate].
  destruct (ensure_is_directory (Args.repo args) w0) as [[[[]|e] w2] t2];
    [|discriminate].
  unfold ret. intros H. inversion H. reflexivity.
Qed.

(** [main] is its views put together. *)
Lemma main_views parsed w :
  main parsed w =
  bind (main_machine parsed)
       (fun machine =>
          match machine with
          | None => sys_exit 2
          | Some machine => main_resolve (fst parsed) machine
          end) w.
Proof.
  destruct parsed as [args unknown].
  unfold main, main_machine.
  rewrite bind_assoc.
  apply bind_ext_on. intros a w1 t1 Ha.
  apply parse_args_returns in Ha. subst a.
  rewrite bind_assoc.
  apply bind_ext_on. intros [] w2 t2 _.
  apply bind_ext_on. intros [machine|] w3 t3 _; reflexivity.
Qed.

Lemma main_no_machine parsed w w1 t1 :
  main_machine parsed w = (Return None, w1, t1) ->
  main parsed w = (Raise (SystemExit 2), w1, (t1 ++ [])%list).
Proof.
  intros H. rewrite main_views. erewrite bind_return by exact H. reflexivity.
Qed.

Lemma main_machine_raises parsed w e w1 t1 :
  main_machine parsed w = (Raise e, w1, t1) ->
  main parsed w = (Raise e, w1, t1).
Proof. intros H. rewrite main_views. now apply bind_raise. Qed.

Lemma main_with_machine parsed w machine w1 t1 :
  main_machine parsed w = (Return (Some machine), w1, t1) ->
  main parsed w = after t1 (main_resolve (fst parsed) machine w1).
Proof.
  intros H. rewrite main_views. erewrite bind_return by exact H. reflexivity.
Qed.

Lemma script_of_main parsed w :
  script parsed w =
  match main parsed w with
  | (Return _, w', t) => (Raise (SystemExit 0), w', (t ++ [])%list)
  | other => other
  end.
Proof.
  unfold script, bind, sys_exit, raise.
  destruct (main parsed w) as [[[[]|e] w'] t]; reflexivity.
Qed.

End Runs.

Section TotalRuns.

Context {World : Type} {os : OS World}.

(** Without timeout, [_execute_command] returns what the subprocess
    printed once it has exited. *)
Lemma execute_shown_no_timeout shown command w :
  execute_shown shown command None w =
  (Return (stdout_of command w), world_after command w,
   [Printed shown; Popen command; Printed (stderr_of command w)]).
Proof. reflexivity. Qed.

Lemma execute_command_no_timeout command w :
  _execute_command command None w =
  (Return (stdout_of command w), world_after command w, execute_events command w).
Proof. apply execute_shown_no_timeout. Qed.

Ltac run_step :=
  first [ erewrite bind_return by apply execute_command_no_timeout
        | erewrite bind_return by reflexivity ].

Lemma commands_execute_events command w :
  commands (execute_events command w) = [command].
Proof. reflexivity. Qed.

Lemma rev_parse_some repo rev w :
  _rev_parse_in_repo repo (Some rev) w =
  (Return (hd_error (output_lines (rev_parse_command repo rev) w)),
   world_after (rev_parse_command repo rev) w,
   execute_events (rev_parse_command repo rev) w).
Proof.
  unfold _rev_parse_in_repo.
  erewrite bind_return by apply execute_command_no_timeout.
  unfold output_lines, rev_parse_command.
  destruct (Py.splitlines _); reflexivity.
Qed.

Lemma main_resolve_to_unresolved args machine w :
  let command := rev_parse_command (update_repo_of args) (to_rev_of args machine) in
  output_lines command w = [] ->
  main_resolve args machine w =
  (Raise (SystemExit 1), world_after command w,
   (execute_events command w
    ++ [Warn ("rev " ++ to_rev_of args machine ++ " not found in "
              ++ update_repo_of args)])%list).
Proof.
  intros command H. unfold main_resolve.
  erewrite bind_return by apply rev_parse_some.
  fold command. rewrite H. reflexivity.
Qed.

Lemma main_resolve_to_resolved args machine w to_sha rest :
  let command := rev_parse_command (update_repo_of args) (to_rev_of args machine) in
  output_lines command w = to_sha :: rest ->
  main_resolve args machine w =
  after (execute_events command w)
    (main_resolve_from args machine to_sha (from_rev_of args machine)
       (world_after command w)).
Proof.
  intros command H. unfold main_resolve.
  erewrite bind_return by apply rev_parse_some.
  fold command. rewrite H. reflexivity.
Qed.

Lemma main_resolve_from_empty args machine to_sha w :
  main_resolve_from args machine to_sha None w =
  main_generate args machine to_sha None w.
Proof.
  unfold main_resolve_from.
  erewrite bind_return by apply rev_parse_none.
  apply after_nil.
Qed.

Lemma main_resolve_from_unresolved args machine to_sha from_rev w :
  let command := rev_parse_command (Args.repo args) from_rev in
  output_lines command w = [] ->
  main_resolve_from args machine to_sha (Some from_rev) w =
  (Raise (SystemExit 1), world_after command w,
   (execute_events command w
    ++ [Warn ("rev " ++ from_rev ++ " not found in " ++ Args.repo args)])%list).
Proof.
  intros command H. unfold main_resolve_from.
  erewrite bind_return by apply rev_parse_some.
  fold command. rewrite H. reflexivity.
Qed.

Lemma main_resolve_from_resolved args machine to_sha from_rev w from_sha rest :
  let command := rev_parse_command (Args.repo args) from_rev in
  output_lines command w = from_sha :: rest ->
  main_resolve_from args machine to_sha (Some from_rev) w =
  after (execute_events command w)
    (main_generate args machine to_sha (Some from_sha) (world_after command w)).
Proof.
  intros command H. unfold main_resolve_from.
  erewrite bind_return by apply rev_parse_some.
  fold command. rewrite H. reflexivity.
Qed.

Lemma generate_tarball_run outputpath w :
  exists w' t,
    _generate_tarball outputpath w = (Return tt, w', t)
    /\ commands t = [tar_command outputpath; gzip_command outputpath].
Proof.
  unfold _generate_tarball. do 3 run_step.
  do 2 eexists. split; reflexivity.
Qed.

Lemma generate_static_delta_run repo outputpath machine to_sha from_sha w :
  exists w' t,
    _generate_static_delta_between_shas repo outputpath machine to_sha from_sha w
    = (Return tt, w',
       WriteFile (Py.path_join outputpath "metadata")
         (metadata_text match from_sha with Some f => f | None => machine end
                        to_sha) :: t)
    /\ commands t =
       [static_delta_command repo outputpath to_sha
          match from_sha with
          | None => ["--empty"]
          | Some from_sha => ["--from"; from_sha]
          end;
        tar_command outputpath; gzip_command outputpath].
Proof.
  unfold _generate_static_delta_between_shas.
  destruct from_sha as [f|]; do 3 run_step.
  all: match goal with
       | |- context [_generate_tarball ?o ?w] =>
           destruct (generate_tarball_run o w) as (w' & t & -> & Ht)
       end.
  all: do 2 eexists; split; [reflexivity|].
  all: simpl; now rewrite Ht.
Qed.

Lemma main_generate_run args machine to_sha from_sha w :
  exists w' t,
    main_generate args machine to_sha from_sha w = (Return tt, w', t)
    /\ commands t = generate_commands args to_sha from_sha.
Proof.
  unfold main_generate, generate_commands, _transfer_sha_between_repos.
  destruct (negb (Args.repo args =? update_repo_of args));
    rewrite ?bind_assoc; repeat run_step.
  all: match goal with
       | |- context [bind (_generate_static_delta_between_shas ?r ?o ?m ?t ?f) _ ?w] =>
           destruct (generate_static_delta_run r o m t f w) as (w' & tr & H & Ht);
           erewrite bind_return by exact H
       end.
  all: destruct (Args.generate_bin args); repeat run_step.
  all: do 2 eexists; split; [reflexivity|].
  all: simpl; rewrite ?commands_app, Ht; reflexivity.
Qed.

(** With a timeout that the subprocess meets, nothing else changes. *)
Lemma execute_command_in_time command t w :
  (duration (spawn command w) <= t)%N ->
  _execute_command command (Some t) w = _execute_command command None w.
Proof.
  intros H.
  unfold _execute_command, execute_shown, bind, print, popen,
    try_except_timeout, communicate, ret, call.
  cbn [sys_print sys_popen total needs exits]. apply N.ltb_ge in H. rewrite H.
  reflexivity.
Qed.

End TotalRuns.

Ltac run_step :=
  first [ erewrite bind_return by apply execute_command_no_timeout
        | erewrite bind_return by reflexivity ].

(* ================================================================= *)
(** ** Machine detection *)

Lemma length_list_remove x l :
  (List.length (Py.list_remove x l) <= List.length l)%nat.
Proof.
  induction l as [|y l IH]; simpl; [lia|].
  destruct (x =? y); simpl; lia.
Qed.

(** Fuel beyond the number of elements left to visit changes nothing:
    the loop of [_determine_machine_from_repo] has ended by then. *)
Lemma for_ref_in_output_fuel fuel1 fuel2 i output :
  (List.length output - i <= fuel1)%nat ->
  (List.length output - i <= fuel2)%nat ->
  for_ref_in_output fuel1 i output = for_ref_in_output fuel2 i output.
Proof.
  revert fuel2 i output.
  induction fuel1 as [|fuel1 IH]; intros fuel2 i output H1 H2.
  - destruct fuel2 as [|fuel2]; simpl; [reflexivity|].
    assert (Hn : nth_error output i = None) by (apply nth_error_None; lia).
    now rewrite Hn.
  - destruct fuel2 as [|fuel2]; simpl.
    + assert (Hn : nth_error output i = None) by (apply nth_error_None; lia).
      now rewrite Hn.
    + destruct (nth_error output i) as [ref|] eqn:Hn; [|reflexivity].
      assert (i < List.length output)%nat
        by (apply nth_error_Some; congruence).
      destruct (Py.startswith ref "ostree").
      * pose proof (length_list_remove ref output). apply IH; lia.
      * apply IH; lia.
Qed.

(** The loop only removes: what is left has no more elements. *)
Lemma length_for_ref_in_output fuel i output :
  (List.length (for_ref_in_output fuel i output) <= List.length output)%nat.
Proof.
  revert i output. induction fuel as [|fuel IH]; intros i output; simpl; [lia|].
  destruct (nth_error output i) as [ref|]; [|lia].
  destruct (Py.startswith ref "ostree"); [|apply IH].
  pose proof (length_list_remove ref output).
  pose proof (IH (S i) (Py.list_remove ref output)). lia.
Qed.

(** What the loop leaves was in the listing. *)
Lemma list_remove_incl x l m : In m (Py.list_remove x l) -> In m l.
Proof.
  induction l as [|y l IH]; simpl; [tauto|].
  destruct (x =? y); simpl; tauto.
Qed.

Lemma for_ref_in_output_incl fuel i output m :
  In m (for_ref_in_output fuel i output) -> In m output.
Proof.
  revert i output. induction fuel as [|fuel IH]; intros i output; simpl;
    [tauto|].
  destruct (nth_error output i) as [ref|]; [|tauto].
  destruct (Py.startswith ref "ostree"); [|apply IH].
  intros H. apply IH in H. now apply list_remove_incl in H.
Qed.

(** A listing without [ostree] refs is left as it is. *)
Lemma for_ref_in_output_clean fuel i output :
  forallb (fun ref => negb (Py.startswith ref "ostree")) output = true ->
  for_ref_in_output fuel i output = output.
Proof.
  intros H. revert i. induction fuel as [|fuel IH]; intros i; simpl; [reflexivity|].
  destruct (nth_error output i) as [ref|] eqn:Hn; [|reflexivity].
  apply nth_error_In in Hn.
  rewrite forallb_forall in H. specialize (H ref Hn).
  apply negb_true_iff in H. rewrite H. apply IH.
Qed.

(** The listing of the spec's end-to-end scenario. *)
Example determine_machine_scenario :
  fst (fst (_determine_machine_from_repo
              (os := scripted_table
                       [(refs_command "/repo",
                         "ostree/bootloader" ++ nl ++ "myboard" ++ nl)])
              "/repo" []))
  = Return (Some "myboard").
Proof. reflexivity. Qed.

(** C1 (violated by the code): machine detection means to discard every
    ref that starts with [ostree] and to accept the listing when exactly
    one ref is left.  The loop removes from the list it iterates over,
    so the ref that follows a removed one is never looked at.  With two
    [ostree] refs in a row before the machine ref, one of them survives:
    two candidates are printed, no machine is returned and the script
    exits with status 2 although exactly one ref is not prefixed.  With
    two [ostree] refs and nothing else, the survivor is returned as the
    machine although no ref qualifies. *)
Theorem determine_machine_keeps_ostree_ref :
  let os1 := scripted_table
               [(refs_command "/repo",
                 "ostree/0/1/0" ++ nl ++ "ostree/0/1/1" ++ nl ++ "myboard" ++ nl)] in
  let os2 := scripted_table
               [(refs_command "/repo", "ostree/0/1/0" ++ nl ++ "ostree/0/1/1" ++ nl)] in
  let args := {| Args.repo := "/repo"; Args.output := "/out";
                 Args.update_repo := None; Args.machine := None;
                 Args.to_sha := None; Args.from_sha := None;
                 Args.generate_bin := false; Args.empty := false |} in
  filter (fun ref => negb (Py.startswith ref "ostree"))
         (output_lines (os := os1) (refs_command "/repo") [])
  = ["myboard"]
  /\ _determine_machine_from_repo (os := os1) "/repo" []
     = (Return None, [],
        [Printed "['ostree', '--repo=/repo', 'refs']";
         Popen (refs_command "/repo");
         Printed EmptyString;
         Printed ("Error:" ++ tab ++ "Could not determine the machine name from the repo");
         Printed (tab ++ "Possible values are:");
         Printed (tab ++ tab ++ "ostree/0/1/1");
         Printed (tab ++ tab ++ "myboard")])
  /\ exit_status (fst (fst (script (os := os1) (args, []) []))) = 2%Z
  /\ filter (fun ref => negb (Py.startswith ref "ostree"))
            (output_lines (os := os2) (refs_command "/repo") [])
     = []
  /\ fst (fst (_determine_machine_from_repo (os := os2) "/repo" []))
     = Return (Some "ostree/0/1/1").
Proof. repeat split; vm_compute; reflexivity. Qed.

(* ================================================================= *)
(** ** The timeout of [_execute_command] *)

Section TimeoutHandler.

Context {World : Type} {os : OS World}.

(** C2 (violated by the code): a subprocess that outlives its timeout
    is meant to be killed and reaped, and its output returned.  The
    handler of [TimeoutExpired] starts by evaluating [ExecuteHelper],
    a name the module never binds: [NameError] is raised in the
    handler, the subprocess is not killed, nothing is reaped and the
    caller gets the exception instead of the output. *)
Theorem execute_command_timeout_raises command t w :
  (t < duration (spawn command w))%N ->
  _execute_command command (Some t) w
  = (Raise (NameError "ExecuteHelper"), w,
     [Printed (Py.repr_list command); Popen command]).
Proof.
  intros H.
  unfold _execute_command, execute_shown, bind, print, popen,
    try_except_timeout, communicate, ret, call.
  cbn [sys_print sys_popen total needs exits]. apply N.ltb_lt in H. rewrite H.
  reflexivity.
Qed.

End TimeoutHandler.

Lemma execute_command_timeout_raises_witness :
  _execute_command (os := scripted_table []) ["sleep"; "60"] (Some 1%N) []
  = (Raise (NameError "ExecuteHelper"), [],
     [Printed (Py.repr_list ["sleep"; "60"]); Popen ["sleep"; "60"]]).
Proof.
  apply (execute_command_timeout_raises (os := scripted_table [])).
  reflexivity.
Defined.

(* ================================================================= *)
(** ** Fields of the log *)

Lemma extract_value_cases data line :
  (exists v, extract_value data line = Return v)
  \/ extract_value data line = Raise IndexError.
Proof.
  unfold extract_value.
  destruct (data =? "Date").
  - destruct (Py.split_once ":" line) as [[a b]|]; eauto.
  - destruct (Py.split line) as [|x [|v l]]; eauto.
Qed.

(** When every line of the field has a value, the loop collects them
    in order. *)
Lemma for_line_in_output_values data output values :
  (forall l, In l (filter (fun l => Py.startswith l data) output) ->
             exists v, extract_value data l = Return v) ->
  exists vs,
    for_line_in_output data output values = Return (values ++ vs)%list
    /\ map Return vs
       = map (extract_value data) (filter (fun l => Py.startswith l data) output).
Proof.
  revert values. induction output as [|line rest IH]; intros values H; simpl.
  - exists []. now rewrite app_nil_r.
  - simpl in H. destruct (Py.startswith line data).
    + destruct (H line (or_introl eq_refl)) as [v Hv]. rewrite Hv.
      destruct (IH (values ++ [v])%list) as (vs & Hrun & Hvs).
      { intros l Hl. apply H. now right. }
      exists (v :: vs). split.
      * now rewrite Hrun, <- app_assoc.
      * simpl. now rewrite Hv, Hvs.
    + apply IH, H.
Qed.

(** A line of the field without value stops the loop with
    [IndexError]. *)
Lemma for_line_in_output_raises data output values :
  (exists l, In l (filter (fun l => Py.startswith l data) output)
             /\ extract_value data l = Raise IndexError) ->
  for_line_in_output data output values = Raise IndexError.
Proof.
  revert values. induction output as [|line rest IH];
    intros values (l & Hl & He); simpl in *; [contradiction|].
  destruct (Py.startswith line data) eqn:Hs.
  - destruct (extract_value_cases data line) as [[v Hv]|Hv]; rewrite Hv; [|reflexivity].
    destruct Hl as [->|Hl]; [congruence|].
    apply IH. eauto.
  - apply IH. eauto.
Qed.

Section LogFields.

Context {World : Type} {os : OS World}.

Lemma get_data_run repo machine data w :
  _get_data_from_repo repo machine data w =
  (match for_line_in_output data (output_lines (log_command repo machine) w) [] with
   | Return [] => Return None
   | Return vs => Return (Some vs)
   | Raise e => Raise e
   end,
   world_after (log_command repo machine) w,
   execute_events (log_command repo machine) w).
Proof.
  unfold _get_data_from_repo.
  erewrite bind_return by apply execute_command_no_timeout.
  fold (log_command repo machine).
  unfold output_lines, bind, lift, after, ret.
  destruct (for_line_in_output data _ []) as [[|v vs]|e]; simpl;
    now rewrite ?app_nil_r.
Qed.

(** C10 (as amended): the log-field helper never returns an empty list.
    It returns [None] when no log line starts with the field name.
    When some line does and every such line has a value to extract (a
    second whitespace-separated word, or a colon for [Date]), it
    returns the non-empty list of those values, in order.  When some
    such line has no value, the subscript raises [IndexError] and the
    helper returns nothing. *)
Theorem get_data_never_empty repo machine data w :
  let matching :=
    filter (fun l => Py.startswith l data)
           (output_lines (log_command repo machine) w) in
  let r := fst (fst (_get_data_from_repo repo machine data w)) in
  r <> Return (Some [])
  /\ (matching = [] -> r = Return None)
  /\ (matching <> [] ->
      (forall l, In l matching -> exists v, extract_value data l = Return v) ->
      exists vs, vs <> [] /\ r = Return (Some vs)
                 /\ map Return vs = map (extract_value data) matching)
  /\ ((exists l, In l matching /\ extract_value data l = Raise IndexError) ->
      r = Raise IndexError).
Proof.
  intros matching r. subst r. rewrite get_data_run. simpl.
  repeat split.
  - destruct (for_line_in_output data _ []) as [[|v vs]|e]; discriminate.
  - intros Hm.
    destruct (for_line_in_output_values data
                (output_lines (log_command repo machine) w) [])
      as (vs & Hrun & Hvs).
    { fold matching. rewrite Hm. intros l []. }
    rewrite Hrun. fold matching in Hvs. rewrite Hm in Hvs.
    destruct vs; [reflexivity|discriminate].
  - intros Hm Hall.
    destruct (for_line_in_output_values data
                (output_lines (log_command repo machine) w) [] Hall)
      as (vs & Hrun & Hvs).
    rewrite Hrun. fold matching in Hvs.
    destruct vs as [|v vs].
    + destruct matching; [congruence|discriminate].
    + exists (v :: vs). repeat split; [discriminate|assumption].
  - intros Hex. now rewrite for_line_in_output_raises.
Qed.

End LogFields.

(** Where a line is the bare field name the helper raises instead of
    returning a list or [None]. *)
Lemma get_data_raises_on_bare_field :
  existsb (fun l => Py.startswith l "commit")
    (output_lines (os := scripted_table [(log_command "/repo" "myboard", "commit" ++ nl)])
       (log_command "/repo" "myboard") []) = true
  /\ _get_shas_from_repo
       (os := scripted_table [(log_command "/repo" "myboard", "commit" ++ nl)])
       "/repo" "myboard" []
     = (Raise IndexError, [],
        [Printed "['ostree', '--repo=/repo', 'log', 'myboard']";
         Popen (log_command "/repo" "myboard"); Printed EmptyString]).
Proof. split; reflexivity. Qed.

Lemma get_data_never_empty_witness :
  let os1 := scripted_table
               [(log_command "/repo" "myboard",
                 "commit abc123" ++ nl ++ "Date:  2021-03-04 10:20:30 +0000" ++ nl
                 ++ nl ++ "commit def456" ++ nl)] in
  fst (fst (_get_data_from_repo (os := os1) "/repo" "myboard" "Version" []))
  = Return None
  /\ (exists vs, vs <> []
        /\ fst (fst (_get_data_from_repo (os := os1) "/repo" "myboard" "commit" []))
           = Return (Some vs)
        /\ map Return vs = [Return "abc123"; Return "def456"])
  /\ fst (fst (_get_data_from_repo
                 (os := scripted_table [(log_command "/repo" "myboard", "Date" ++ nl)])
                 "/repo" "myboard" "Date" []))
     = Raise IndexError.
Proof.
  intros os1. split; [|split].
  - apply (get_data_never_empty (os := os1) "/repo" "myboard" "Version" []).
    reflexivity.
  - apply (get_data_never_empty (os := os1) "/repo" "myboard" "commit" []).
    + discriminate.
    + intros l Hl. vm_compute in Hl.
      destruct Hl as [<-|[<-|[]]]; eexists; reflexivity.
  - apply (get_data_never_empty
             (os := scripted_table [(log_command "/repo" "myboard", "Date" ++ nl)])
             "/repo" "myboard" "Date" []).
    exists "Date". split; [left|]; reflexivity.
Defined.

(* ================================================================= *)
(** ** Lines of text *)

Lemma string_app_assoc (a b c : string) : (a ++ b) ++ c = a ++ b ++ c.
Proof. induction a as [|x a IH]; simpl; [reflexivity|now rewrite IH]. Qed.

Lemma single_line_app a b :
  single_line (a ++ b) = single_line a && single_line b.
Proof.
  unfold single_line.
  induction a as [|x a IH]; simpl; [reflexivity|].
  rewrite IH. now rewrite andb_assoc.
Qed.

(** A text without line boundary followed by a line feed is one line. *)
Lemma splitlines_line s rest :
  single_line s = true ->
  Py.splitlines (s ++ String Py.LF rest) = s :: Py.splitlines rest.
Proof.
  unfold single_line.
  induction s as [|c s IH]; intros H.
  - simpl. destruct rest; reflexivity.
  - simpl in H. apply andb_true_iff in H. destruct H as [Hc Hs].
    apply negb_true_iff in Hc.
    change (String c s ++ String Py.LF rest)
      with (String c (s ++ String Py.LF rest)).
    cbn [Py.splitlines]. rewrite Hc, (IH Hs). reflexivity.
Qed.

Lemma strip_prefix_app p s : strip_prefix p (p ++ s) = Some s.
Proof.
  induction p as [|a p IH]; simpl; [now destruct s|].
  now rewrite Ascii.eqb_refl.
Qed.

(** The text of the metadata file, line by line. *)
Lemma metadata_text_lines from_id to_id :
  single_line from_id = true ->
  single_line to_id = true ->
  Py.splitlines (metadata_text from_id to_id)
  = ["From-sha:" ++ from_id; "To-sha:" ++ to_id].
Proof.
  intros Hf Ht. unfold metadata_text, nl.
  rewrite <- (string_app_assoc "From-sha:" from_id), string_app_assoc.
  change (String Py.LF EmptyString ++ ?x) with (String Py.LF x).
  rewrite splitlines_line by (rewrite single_line_app, Hf; reflexivity).
  rewrite <- (string_app_assoc "To-sha:" to_id).
  rewrite splitlines_line by (rewrite single_line_app, Ht; reflexivity).
  reflexivity.
Qed.

(** Every line [str.splitlines] returns is free of line boundaries; so
    is every revision [_rev_parse_in_repo] returns and every machine
    name [_determine_machine_from_repo] detects. *)
Lemma splitlines_single_line s :
  Forall (fun l => single_line l = true) (Py.splitlines s).
Proof.
  assert (H : forall n s, (String.length s <= n)%nat ->
                          Forall (fun l => single_line l = true) (Py.splitlines s)).
  { clear s. induction n as [|n IH]; intros s Hn.
    - destruct s; [constructor|simpl in Hn; lia].
    - destruct s as [|c s]; [constructor|].
      simpl in Hn. cbn [Py.splitlines].
      destruct (Py.islinebreak c) eqn:Hc.
      + constructor; [reflexivity|].
        destruct s as [|c' s']; [constructor|].
        destruct (Ascii.eqb c Py.CR && Ascii.eqb c' Py.LF).
        * apply IH. simpl in Hn. lia.
        * apply IH. lia.
      + assert (Hs : Forall (fun l => single_line l = true) (Py.splitlines s))
          by (apply IH; lia).
        destruct (Py.splitlines s) as [|l ls].
        * constructor; [|constructor].
          unfold single_line. simpl. now rewrite Hc.
        * inversion Hs; subst. constructor; [|assumption].
          unfold single_line in *. simpl. now rewrite Hc. }
  apply (H (String.length s)). lia.
Qed.

(* ================================================================= *)
(** ** The runs of [main] *)

Section Main.

Context {World : Type} {os : OS World}.

Lemma bind_after {A B} (m m' : M World A) (f : A -> M World B) t w :
  m' w = after t (m w) ->
  bind m' f w = after t (bind m f w).
Proof.
  intros H. unfold bind. rewrite H.
  destruct (m w) as [[[a|e] w1] t1]; simpl; [|reflexivity].
  destruct (f a w1) as [[r w2] t2]. simpl. now rewrite app_assoc.
Qed.

Lemma parse_args_run args unknown w :
  _parse_args (args, unknown) w =
  after (if (0 <? List.length unknown)%nat
         then [Warn ("unsupported arguments: " ++ Py.repr_list unknown)]
         else [])
        (bind (ensure_is_directory (Args.repo args)) (fun _ => ret args) w).
Proof.
  unfold _parse_args.
  destruct (0 <? List.length unknown)%nat.
  - erewrite bind_return by reflexivity. reflexivity.
  - erewrite bind_return by reflexivity. reflexivity.
Qed.

Lemma ensure_is_directory_total path w :
  ensure_is_directory path w =
  if negb (path_exists path w) then
    (Raise (ValueError (dq ++ path ++ dq ++ " does not exist")), w, [])
  else if negb (path_is_dir path w) then
    (Raise (ValueError (dq ++ path ++ dq ++ " is not a directory")), w, [])
  else (Return tt, w, []).
Proof.
  unfold ensure_is_directory, bind, path_query, raise, ret.
  cbn [sys_exists sys_is_dir total].
  destruct (path_exists path w); simpl; [|reflexivity].
  destruct (path_is_dir path w); reflexivity.
Qed.

Lemma parse_args_directory args unknown w :
  path_exists (Args.repo args) w = true ->
  path_is_dir (Args.repo args) w = true ->
  _parse_args (args, unknown) w =
  (Return args, w,
   if (0 <? List.length unknown)%nat
   then [Warn ("unsupported arguments: " ++ Py.repr_list unknown)]
   else []).
Proof.
  intros He Hd. rewrite parse_args_run.
  unfold bind. rewrite ensure_is_directory_total. unfold ret.
  rewrite He, Hd. simpl.
  now rewrite !app_nil_r.
Qed.

Lemma parse_args_no_directory args unknown w :
  path_exists (Args.repo args) w && path_is_dir (Args.repo args) w = false ->
  exists message t,
    _parse_args (args, unknown) w = (Raise (ValueError message), w, t)
    /\ commands t = [].
Proof.
  intros H. rewrite parse_args_run.
  unfold bind. rewrite ensure_is_directory_total. unfold ret.
  destruct (path_exists (Args.repo args) w); simpl in *;
    [rewrite H; simpl|];
    destruct (0 <? List.length unknown)%nat; simpl;
    do 2 eexists; split; reflexivity.
Qed.

Lemma print_refs_run output (w : World) :
  exists t, print_refs output w = (Return tt, w, t) /\ commands t = [].
Proof.
  induction output as [|ref rest (t & IH & Hc)]; simpl.
  - exists []. split; reflexivity.
  - erewrite bind_return by reflexivity. rewrite IH.
    eexists. split; [reflexivity|]. simpl. exact Hc.
Qed.

(** Machine detection always returns and runs one command. *)
Lemma determine_machine_run repo w :
  exists machine t,
    _determine_machine_from_repo repo w
    = (Return machine, world_after (refs_command repo) w, t)
    /\ commands t = [refs_command repo].
Proof.
  unfold _determine_machine_from_repo.
  erewrite bind_return by apply execute_command_no_timeout.
  fold (refs_command repo).
  destruct (remove_ostree_refs _) as [|m [|m' l]].
  2: { do 2 eexists. split; reflexivity. }
  all: do 2 (erewrite bind_return by reflexivity).
  all: match goal with
       | |- context [bind (print_refs ?l) _ ?w] =>
           destruct (print_refs_run l w) as (t & Hp & Hc)
       end.
  all: erewrite bind_return by exact Hp.
  all: do 2 eexists; split; [reflexivity|].
  all: simpl; rewrite commands_app, Hc; reflexivity.
Qed.

(** [main] up to the machine name, when [--repo] is a directory. *)
Lemma main_machine_run args unknown w :
  path_exists (Args.repo args) w = true ->
  path_is_dir (Args.repo args) w = true ->
  exists machine w1 t1,
    main_machine (args, unknown) w = (Return machine, w1, t1)
    /\ commands t1 = match Args.machine args with
                     | None => [refs_command (Args.repo args)]
                     | Some _ => []
                     end.
Proof.
  intros He Hd. unfold main_machine.
  erewrite bind_return by (apply parse_args_directory; assumption).
  erewrite bind_return by reflexivity.
  destruct (Args.machine args) as [m|].
  - do 3 eexists. split; [reflexivity|].
    destruct (0 <? List.length unknown)%nat; reflexivity.
  - match goal with
    | |- context [_determine_machine_from_repo ?r ?w] =>
        destruct (determine_machine_run r w) as (m & t & Hm & Hc)
    end.
    rewrite Hm. do 3 eexists. split; [reflexivity|].
    destruct (0 <? List.length unknown)%nat; simpl; exact Hc.
Qed.

Lemma main_machine_no_directory args unknown w :
  path_exists (Args.repo args) w && path_is_dir (Args.repo args) w = false ->
  exists message t,
    main_machine (args, unknown) w = (Raise (ValueError message), w, t)
    /\ commands t = [].
Proof.
  intros H. unfold main_machine.
  destruct (parse_args_no_directory args unknown w H) as (message & t & Hp & Hc).
  exists message, t. split; [|exact Hc].
  now apply bind_raise.
Qed.

(** The commands of [main] up to the machine name, whatever happens. *)
Lemma main_machine_commands args unknown w r w1 t1 :
  main_machine (args, unknown) w = (r, w1, t1) ->
  (exists message, r = Raise (ValueError message) /\ commands t1 = [])
  \/ (exists machine, r = Return machine
      /\ commands t1 = match Args.machine args with
                       | None => [refs_command (Args.repo args)]
                       | Some _ => []
                       end).
Proof.
  intros H.
  destruct (path_exists (Args.repo args) w && path_is_dir (Args.repo args) w)
    eqn:Hdir.
  - apply andb_true_iff in Hdir. destruct Hdir as [He Hd].
    destruct (main_machine_run args unknown w He Hd) as (m & w' & t' & Hm & Hc).
    rewrite Hm in H. inversion H; subst. right. eauto.
  - destruct (main_machine_no_directory args unknown w Hdir)
      as (message & t' & Hm & Hc).
    rewrite Hm in H. inversion H; subst. left. eauto.
Qed.

(** [main] from the resolution of [to_rev] on, case by case. *)
Lemma main_resolve_cases args machine w :
  let to_command :=
    rev_parse_command (update_repo_of args) (to_rev_of args machine) in
  let w2 := world_after to_command w in
  match output_lines to_command w with
  | [] =>
      main_resolve args machine w
      = (Raise (SystemExit 1), w2,
         (execute_events to_command w
          ++ [Warn ("rev " ++ to_rev_of args machine ++ " not found in "
                    ++ update_repo_of args)])%list)
  | to_sha :: _ =>
      match from_rev_of args machine with
      | None =>
          exists w' t,
            main_resolve args machine w
            = (Return tt, w', (execute_events to_command w ++ t)%list)
            /\ commands t = generate_commands args to_sha None
      | Some from_rev =>
          let from_command := rev_parse_command (Args.repo args) from_rev in
          match output_lines from_command w2 with
          | [] =>
              main_resolve args machine w
              = (Raise (SystemExit 1), world_after from_command w2,
                 (execute_events to_command w ++ execute_events from_command w2
                  ++ [Warn ("rev " ++ from_rev ++ " not found in "
                            ++ Args.repo args)])%list)
          | from_sha :: _ =>
              exists w' t,
                main_resolve args machine w
                = (Return tt, w',
                   (execute_events to_command w
                    ++ execute_events from_command w2 ++ t)%list)
                /\ commands t = generate_commands args to_sha (Some from_sha)
          end
      end
  end.
Proof.
  intros to_command w2.
  destruct (output_lines to_command w) as [|to_sha rest] eqn:Hto.
  - now apply main_resolve_to_unresolved.
  - rewrite (main_resolve_to_resolved _ _ _ _ _ Hto).
    fold to_command. fold w2.
    destruct (from_rev_of args machine) as [from_rev|].
    + intros from_command.
      destruct (output_lines from_command w2) as [|from_sha rest'] eqn:Hfrom.
      * rewrite main_resolve_from_unresolved by exact Hfrom. reflexivity.
      * rewrite (main_resolve_from_resolved _ _ _ _ _ _ _ Hfrom).
        destruct (main_generate_run args machine to_sha (Some from_sha)
                    (world_after from_command w2)) as (w' & t & Hg & Hc).
        fold from_command. rewrite Hg. exists w', t. split; [reflexivity|exact Hc].
    + rewrite main_resolve_from_empty.
      destruct (main_generate_run args machine to_sha None w2)
        as (w' & t & Hg & Hc).
      rewrite Hg. exists w', t. split; [reflexivity|exact Hc].
Qed.

(** C9: flags the parser does not know cost a warning that lists them
    and nothing else: the script ends the same way, in the same world,
    and does the same things as without them, after the warning. *)
Theorem unknown_arguments_only_warn args unknown w :
  unknown <> [] ->
  script (args, unknown) w =
  after [Warn ("unsupported arguments: " ++ Py.repr_list unknown)]
        (script (args, []) w).
Proof.
  intros H. unfold script, main.
  rewrite 2 bind_assoc.
  apply bind_after.
  rewrite 2 parse_args_run.
  destruct unknown; [congruence|]. simpl.
  now rewrite after_nil.
Qed.

(** C5: when [main] has a machine name and [rev-parse] prints no line
    for the "to" revision expression, the script warns that this
    expression was not found in the update repository and exits with
    status 1; when the "to" expression resolves and there is a "from"
    expression for which [rev-parse] prints no line, the script warns
    that this one was not found in the source repository and exits
    with status 1. *)
Theorem unresolved_revision_exits_1 args unknown w machine w1 t1 :
  main_machine (args, unknown) w = (Return (Some machine), w1, t1) ->
  let to_rev := to_rev_of args machine in
  let to_command := rev_parse_command (update_repo_of args) to_rev in
  let w2 := world_after to_command w1 in
  (output_lines to_command w1 = [] ->
   script (args, unknown) w
   = (Raise (SystemExit 1), w2,
      (t1 ++ execute_events to_command w1
       ++ [Warn ("rev " ++ to_rev ++ " not found in " ++ update_repo_of args)])%list))
  /\ (forall from_rev,
        output_lines to_command w1 <> [] ->
        from_rev_of args machine = Some from_rev ->
        let from_command := rev_parse_command (Args.repo args) from_rev in
        output_lines from_command w2 = [] ->
        script (args, unknown) w
        = (Raise (SystemExit 1), world_after from_command w2,
           (t1 ++ execute_events to_command w1 ++ execute_events from_command w2
            ++ [Warn ("rev " ++ from_rev ++ " not found in " ++ Args.repo args)])%list)).
Proof.
  intros Hm to_rev to_command w2. split.
  - intros Hto. rewrite script_of_main.
    rewrite (main_with_machine _ _ _ _ _ Hm). simpl fst.
    rewrite main_resolve_to_unresolved by exact Hto. reflexivity.
  - intros from_rev Hto Hfrom from_command Hlines. rewrite script_of_main.
    rewrite (main_with_machine _ _ _ _ _ Hm). simpl fst.
    destruct (output_lines to_command w1) as [|to_sha rest] eqn:Hto';
      [congruence|].
    rewrite (main_resolve_to_resolved _ _ _ _ _ Hto'), Hfrom.
    rewrite main_resolve_from_unresolved by exact Hlines.
    reflexivity.
Qed.

(** C3: without [--from_sha] and without [--empty], the revision
    expression that [main] resolves as "from" (the [rev-parse] it runs
    in the source repository right after the one for "to") is the
    machine name followed by [^] when the update repository is the
    source repository, [--update_repo] omitted included, and the bare
    machine name when the two differ. *)
Theorem default_from_revision args unknown w machine w1 t1 to_sha rest :
  Args.from_sha args = None ->
  Args.empty args = false ->
  main_machine (args, unknown) w = (Return (Some machine), w1, t1) ->
  output_lines
    (rev_parse_command (update_repo_of args) (to_rev_of args machine)) w1
  = to_sha :: rest ->
  exists from_rev r w' t more,
    main (args, unknown) w = (r, w', t)
    /\ commands t
       = (commands t1
          ++ [rev_parse_command (update_repo_of args) (to_rev_of args machine);
              rev_parse_command (Args.repo args) from_rev]
          ++ more)%list
    /\ from_rev_of args machine = Some from_rev
    /\ (Args.update_repo args = None
        \/ Args.update_repo args = Some (Args.repo args) ->
        from_rev = machine ++ "^")
    /\ (forall u, Args.update_repo args = Some u -> u <> Args.repo args ->
                  from_rev = machine).
Proof.
  intros Hfrom Hempty Hm Hto.
  set (from_rev := if Args.repo args =? update_repo_of args
                   then machine ++ "^" else machine).
  assert (Hrev : from_rev_of args machine = Some from_rev).
  { unfold from_rev_of, from_rev. rewrite Hempty, Hfrom.
    now destruct (Args.repo args =? update_repo_of args). }
  exists from_rev.
  rewrite (main_with_machine _ _ _ _ _ Hm). simpl fst.
  pose proof (main_resolve_cases args machine w1) as Hcases.
  cbv zeta in Hcases. rewrite Hto, Hrev in Hcases.
  assert (Hr : exists r w' t more,
             main_resolve args machine w1 = (r, w', t)
             /\ commands t
                = ([rev_parse_command (update_repo_of args) (to_rev_of args machine);
                    rev_parse_command (Args.repo args) from_rev] ++ more)%list).
  { destruct (output_lines (rev_parse_command (Args.repo args) from_rev) _).
    - rewrite Hcases. do 4 eexists. split; [reflexivity|].
      instantiate (1 := []). reflexivity.
    - destruct Hcases as (w' & t & -> & Hc).
      do 4 eexists. split; [reflexivity|].
      rewrite !commands_app, Hc. reflexivity. }
  destruct Hr as (r & w' & t & more & -> & Hc).
  exists r, w', (t1 ++ t)%list, more. repeat split.
  - now rewrite commands_app, Hc.
  - exact Hrev.
  - unfold from_rev, update_repo_of.
    intros [->| ->]; now rewrite String.eqb_refl.
  - intros u Hu Hne. unfold from_rev, update_repo_of. rewrite Hu.
    destruct (String.eqb_spec (Args.repo args) u); congruence.
Qed.

(** C4: with [--empty], whatever [--from_sha] says, a run that has a
    machine name and a resolved "to" revision runs [rev-parse] once,
    for the "to" expression, and then generates the static delta with
    [--empty] and without [--from]: its commands are the listing of the
    refs when the machine is to be detected, that [rev-parse], the
    transfer when the repositories differ, the generation, the archive
    and its compression, and the renaming when asked for. *)
Theorem empty_resolves_no_from_revision args unknown w machine w1 t1 to_sha rest :
  Args.empty args = true ->
  main_machine (args, unknown) w = (Return (Some machine), w1, t1) ->
  output_lines
    (rev_parse_command (update_repo_of args) (to_rev_of args machine)) w1
  = to_sha :: rest ->
  exists w' t,
    main (args, unknown) w = (Return tt, w', t)
    /\ commands t
       = (match Args.machine args with
          | None => [refs_command (Args.repo args)]
          | Some _ => []
          end
          ++ [rev_parse_command (update_repo_of args) (to_rev_of args machine)]
          ++ (if negb (Args.repo args =? update_repo_of args)
              then [pull_local_command (update_repo_of args) (Args.repo args) to_sha]
              else [])
          ++ [static_delta_command (Args.repo args) (Args.output args) to_sha
                ["--empty"];
              tar_command (Args.output args);
              gzip_command (Args.output args)]
          ++ (if Args.generate_bin args then [mv_command (Args.output args)]
              else []))%list.
Proof.
  intros Hempty Hm Hto.
  rewrite (main_with_machine _ _ _ _ _ Hm). simpl fst.
  pose proof (main_resolve_cases args machine w1) as Hcases.
  cbv zeta in Hcases. rewrite Hto in Hcases.
  unfold from_rev_of in Hcases. rewrite Hempty in Hcases.
  destruct Hcases as (w' & t & -> & Hc).
  do 2 eexists. split; [reflexivity|].
  rewrite !commands_app, Hc.
  destruct (main_machine_commands _ _ _ _ _ _ Hm)
    as [(message & Hr & _)|(m & _ & ->)]; [discriminate|].
  reflexivity.
Qed.

Lemma no_pull_local_generate args to_sha from_sha :
  Args.repo args = update_repo_of args ->
  existsb is_pull_local (generate_commands args to_sha from_sha) = false.
Proof.
  intros H. unfold generate_commands. rewrite <- H, String.eqb_refl. simpl.
  destruct (Args.generate_bin args); reflexivity.
Qed.

(** The delta step, event by event up to the archive. *)
Lemma generate_static_delta_exact repo outputpath machine to_sha from_sha w :
  let path := Py.path_join outputpath "metadata" in
  let text :=
    metadata_text match from_sha with Some f => f | None => machine end to_sha in
  let delta :=
    static_delta_command repo outputpath to_sha
      match from_sha with
      | None => ["--empty"]
      | Some f => ["--from"; f]
      end in
  exists w' t_after,
    _generate_static_delta_between_shas repo outputpath machine to_sha from_sha w
    = (Return tt, w',
       (WriteFile path text
        :: execute_events delta (write_file path text w) ++ t_after)%list)
    /\ commands t_after = [tar_command outputpath; gzip_command outputpath].
Proof.
  intros path text delta. subst path text delta.
  unfold _generate_static_delta_between_shas.
  destruct from_sha as [f|]; do 3 run_step.
  all: match goal with
       | |- context [_generate_tarball ?o ?w] =>
           destruct (generate_tarball_run o w) as (w' & t & -> & Ht)
       end.
  all: do 2 eexists; split; [reflexivity|exact Ht].
Qed.

(** [main] once the revisions are resolved, when the repositories
    differ: the transfer runs to its end, then the delta step runs in
    the world the transfer left. *)
Lemma main_generate_transfer args machine to_sha from_sha w :
  Args.repo args <> update_repo_of args ->
  let pull := pull_local_command (update_repo_of args) (Args.repo args) to_sha in
  let path := Py.path_join (Args.output args) "metadata" in
  let text :=
    metadata_text match from_sha with Some f => f | None => machine end to_sha in
  let delta :=
    static_delta_command (Args.repo args) (Args.output args) to_sha
      match from_sha with
      | None => ["--empty"]
      | Some f => ["--from"; f]
      end in
  exists w' t_after,
    main_generate args machine to_sha from_sha w
    = (Return tt, w',
       (execute_events pull w
        ++ [Printed (stdout_of pull w); WriteFile path text]
        ++ execute_events delta (write_file path text (world_after pull w))
        ++ t_after)%list)
    /\ commands t_after
       = ([tar_command (Args.output args); gzip_command (Args.output args)]
          ++ (if Args.generate_bin args then [mv_command (Args.output args)]
              else []))%list.
Proof.
  intros Hne pull path text delta.
  unfold main_generate, _transfer_sha_between_repos.
  apply String.eqb_neq in Hne. rewrite Hne. cbn [negb].
  rewrite bind_assoc. do 2 run_step.
  fold pull.
  destruct (generate_static_delta_exact (Args.repo args) (Args.output args)
              machine to_sha from_sha (world_after pull w))
    as (w' & t & Hgen & Ht).
  erewrite bind_return by exact Hgen.
  destruct (Args.generate_bin args); repeat run_step.
  all: do 2 eexists; split; [reflexivity|].
  all: rewrite ?commands_app, Ht; reflexivity.
Qed.

(** [main] from the resolution of [to_rev] on, when both revisions
    resolve. *)
Lemma main_resolve_resolved args machine w1 to_sha rest :
  let to_command :=
    rev_parse_command (update_repo_of args) (to_rev_of args machine) in
  output_lines to_command w1 = to_sha :: rest ->
  (forall from_rev,
      from_rev_of args machine = Some from_rev ->
      output_lines (rev_parse_command (Args.repo args) from_rev)
                   (world_after to_command w1) <> []) ->
  exists t_resolve,
    main_resolve args machine w1
    = after t_resolve
        (main_generate args machine to_sha (fst (resolved_from args machine w1))
           (snd (resolved_from args machine w1)))
    /\ existsb is_pull_local (commands t_resolve) = false.
Proof.
  intros to_command Hto Hfrom.
  rewrite (main_resolve_to_resolved _ _ _ _ _ Hto). fold to_command.
  unfold resolved_from. fold to_command.
  destruct (from_rev_of args machine) as [from_rev|].
  - specialize (Hfrom from_rev eq_refl).
    destruct (output_lines (rev_parse_command (Args.repo args) from_rev) _)
      as [|from_sha rest'] eqn:Hlines; [congruence|].
    rewrite (main_resolve_from_resolved _ _ _ _ _ _ _ Hlines), after_after.
    cbn [fst snd hd_error]. eexists. split; [reflexivity|].
    rewrite commands_app, !commands_execute_events. reflexivity.
  - rewrite main_resolve_from_empty. cbn [fst snd].
    eexists. split; [reflexivity|].
    rewrite commands_execute_events. reflexivity.
Qed.

(** C7: in a run that resolves its revisions, when the update
    repository is not the source repository, [main] pulls the resolved
    "to" commit from the update repository into the source repository
    ([pull-local] with the source repository as [--repo]): it starts
    the transfer, waits for it to end and prints what it printed; only
    then does it write the metadata and start the generation of the
    static delta, which is the next command and runs in the world that
    the finished transfer left; no other command of the run is a
    transfer.  When the two repositories are the same path, no run of
    [main] starts a transfer. *)
Theorem transfer_when_repositories_differ args unknown w :
  (forall machine w1 t1 to_sha rest,
      Args.repo args <> update_repo_of args ->
      main_machine (args, unknown) w = (Return (Some machine), w1, t1) ->
      let to_command :=
        rev_parse_command (update_repo_of args) (to_rev_of args machine) in
      output_lines to_command w1 = to_sha :: rest ->
      (forall from_rev,
          from_rev_of args machine = Some from_rev ->
          output_lines (rev_parse_command (Args.repo args) from_rev)
                       (world_after to_command w1) <> []) ->
      let from_sha := fst (resolved_from args machine w1) in
      let w3 := snd (resolved_from args machine w1) in
      let pull :=
        pull_local_command (update_repo_of args) (Args.repo args) to_sha in
      let path := Py.path_join (Args.output args) "metadata" in
      let text :=
        metadata_text match from_sha with Some f => f | None => machine end
                      to_sha in
      let delta :=
        static_delta_command (Args.repo args) (Args.output args) to_sha
          match from_sha with
          | None => ["--empty"]
          | Some f => ["--from"; f]
          end in
      exists w' t t_before t_after,
        main (args, unknown) w = (Return tt, w', t)
        /\ t = (t_before
                ++ execute_events pull w3
                ++ [Printed (stdout_of pull w3); WriteFile path text]
                ++ execute_events delta
                     (write_file path text (world_after pull w3))
                ++ t_after)%list
        /\ commands t
           = (commands t_before ++ [pull; delta] ++ commands t_after)%list
        /\ existsb is_pull_local (commands t_before) = false
        /\ existsb is_pull_local (commands t_after) = false)
  /\ (forall r w' t,
        Args.repo args = update_repo_of args ->
        main (args, unknown) w = (r, w', t) ->
        existsb is_pull_local (commands t) = false).
Proof.
  split.
  - intros machine w1 t1 to_sha rest Hne Hm to_command Hto Hfrom
      from_sha w3 pull path text delta.
    rewrite (main_with_machine _ _ _ _ _ Hm). simpl fst.
    destruct (main_resolve_resolved args machine w1 to_sha rest Hto Hfrom)
      as (t_resolve & -> & Hresolve).
    destruct (main_generate_transfer args machine to_sha from_sha w3 Hne)
      as (w' & t_after & Hgen & Hafter).
    fold from_sha w3. rewrite Hgen.
    destruct (main_machine_commands _ _ _ _ _ _ Hm)
      as [(message & Hr & _)|(m & _ & Hc1)]; [discriminate|].
    exists w', (t1 ++ t_resolve
                ++ execute_events pull w3
                ++ [Printed (stdout_of pull w3); WriteFile path text]
                ++ execute_events delta
                     (write_file path text (world_after pull w3))
                ++ t_after)%list,
      (t1 ++ t_resolve)%list, t_after.
    split; [reflexivity|]. split; [now rewrite <- app_assoc|].
    split; [|split].
    + rewrite !commands_app, !commands_execute_events.
      rewrite <- !app_assoc. reflexivity.
    + rewrite commands_app, existsb_app, Hresolve, Hc1.
      destruct (Args.machine args); reflexivity.
    + rewrite Hafter. destruct (Args.generate_bin args); reflexivity.
  - intros r w' t Hsame Hrun.
    destruct (main_machine (args, unknown) w) as [[r1 w1] t1] eqn:Hm.
    destruct (main_machine_commands _ _ _ _ _ _ Hm)
      as [(message & -> & Hc1)|(m & -> & Hc1)].
    + rewrite (main_machine_raises _ _ _ _ _ Hm) in Hrun.
      inversion Hrun; subst. now rewrite Hc1.
    + assert (H1 : existsb is_pull_local (commands t1) = false)
        by (rewrite Hc1; destruct (Args.machine args); reflexivity).
      destruct m as [machine|].
      2: { rewrite (main_no_machine _ _ _ _ Hm) in Hrun.
           inversion Hrun; subst. now rewrite app_nil_r. }
      rewrite (main_with_machine _ _ _ _ _ Hm) in Hrun. simpl fst in Hrun.
      pose proof (main_resolve_cases args machine w1) as Hcases.
      cbv zeta in Hcases.
      destruct (output_lines _ w1) as [|to_sha rest].
      { rewrite Hcases in Hrun. inversion Hrun; subst.
        rewrite commands_app, existsb_app, H1. reflexivity. }
      destruct (from_rev_of args machine) as [from_rev|].
      * destruct (output_lines (rev_parse_command (Args.repo args) from_rev) _)
          as [|from_sha rest'].
        { rewrite Hcases in Hrun. inversion Hrun; subst.
          rewrite commands_app, existsb_app, H1. reflexivity. }
        destruct Hcases as (w2 & t2 & Hres & Hc). rewrite Hres in Hrun.
        inversion Hrun; subst.
        rewrite commands_app, existsb_app, H1. simpl. rewrite Hc.
        now apply no_pull_local_generate.
      * destruct Hcases as (w2 & t2 & Hres & Hc). rewrite Hres in Hrun.
        inversion Hrun; subst.
        rewrite commands_app, existsb_app, H1. simpl. rewrite Hc.
        now apply no_pull_local_generate.
Qed.

End Main.

(* ================================================================= *)
(** ** How runs end, whatever the environment does *)

Lemma writes_app t1 t2 : writes (t1 ++ t2)%list = (writes t1 ++ writes t2)%list.
Proof.
  induction t1 as [|e t1 IH]; simpl; [reflexivity|].
  destruct e; simpl; now rewrite IH.
Qed.

Lemma created_app t1 t2 :
  created (t1 ++ t2)%list = (created t1 ++ created t2)%list.
Proof.
  induction t1 as [|e t1 IH]; simpl; [reflexivity|].
  destruct e; simpl; now rewrite IH.
Qed.

Lemma quiet_app t1 t2 : quiet t1 -> quiet t2 -> quiet (t1 ++ t2)%list.
Proof.
  intros [Hw1 Hc1] [Hw2 Hc2]. split.
  - now rewrite writes_app, Hw1, Hw2.
  - now rewrite commands_app, forallb_app, Hc1, Hc2.
Qed.

Lemma quiet_nil : quiet [].
Proof. split; reflexivity. Qed.

Lemma no_writes_app t1 t2 :
  writes t1 = [] -> writes t2 = [] -> writes (t1 ++ t2)%list = [].
Proof. intros H1 H2. now rewrite writes_app, H1, H2. Qed.


Section Endings.

Context {World : Type} {os : Sys World}.

Lemma behaves_bind {A B} (m : M World A) (f : A -> M World B)
    (E : exn -> Prop) (T : list event -> Prop) :
  (forall t1 t2, T t1 -> T t2 -> T (t1 ++ t2)%list) ->
  behaves m E T ->
  (forall a, behaves (f a) E T) ->
  behaves (bind m f) E T.
Proof.
  intros Happ Hm Hf w r w' t H. unfold bind in H.
  destruct (m w) as [[[a|e] w1] t1] eqn:Em.
  - destruct (f a w1) as [[r2 w2] t2] eqn:Ef. inversion H; subst.
    destruct (Hm _ _ _ _ Em) as [T1 _].
    destruct (Hf a _ _ _ _ Ef) as [T2 E2]. auto.
  - inversion H; subst. destruct (Hm _ _ _ _ Em) as [T1 E1].
    split; [exact T1|]. intros e' He. inversion He; subst. now apply E1.
Qed.

Lemma behaves_ret {A} (a : A) E (T : list event -> Prop) :
  T [] -> behaves (ret (World := World) a) E T.
Proof.
  intros HT w r w' t H. inversion H; subst. split; [exact HT|discriminate].
Qed.

Lemma behaves_raise {A} e (E : exn -> Prop) (T : list event -> Prop) :
  T [] -> E e -> behaves (raise (World := World) (A := A) e) E T.
Proof.
  intros HT HE w r w' t H. inversion H; subst. split; [exact HT|].
  intros e' He. inversion He. now subst.
Qed.

Lemma behaves_call {A} (o : World -> outcome A World) done
    (T : list event -> Prop) :
  T [] -> T done ->
  behaves (fun w => call (o w) done) environment_error T.
Proof.
  intros H0 Hd w r w' t H. unfold call in H.
  destruct (o w) as [a w1|f w1]; inversion H; subst.
  - split; [exact Hd|discriminate].
  - split; [exact H0|]. intros e He. inversion He. now exists f.
Qed.

Lemma behaves_print text (T : list event -> Prop) :
  T [] -> T [Printed text] -> behaves (print text) environment_error T.
Proof. intros H0 H1. unfold print. now apply behaves_call. Qed.

Lemma behaves_warning message (T : list event -> Prop) :
  T [] -> T [Warn message] -> behaves (warning message) environment_error T.
Proof. intros H0 H1. unfold warning. now apply behaves_call. Qed.

Lemma behaves_weaken {A} (m : M World A) (E E' : exn -> Prop) T :
  (forall e, E e -> E' e) -> behaves m E T -> behaves m E' T.
Proof.
  intros HE Hm w r w' t H. destruct (Hm _ _ _ _ H) as [HT He]. auto.
Qed.

(** Without timeout, a command either runs to its end or fails in the
    environment; what it leaves in the trace is its echo, its start and
    the echo of its standard error, as far as it got. *)
Lemma behaves_execute_shown shown command (T : list event -> Prop) :
  T [] ->
  T [Printed shown] ->
  T [Printed shown; Popen command] ->
  (forall err, T [Printed shown; Popen command; Printed err]) ->
  behaves (execute_shown shown command None) environment_error T.
Proof.
  intros H0 H1 H2 H3 w r w' t.
  assert (Henv : forall A f e, @Raise A (OfEnvironment f) = Raise e ->
                               environment_error e)
    by (intros A f e He; inversion He; now exists f).
  unfold execute_shown, bind, print, popen, try_except_timeout,
    communicate, call, ret.
  destruct (sys_print shown w) as [[] w0|f w0]; simpl.
  2: { intros H; inversion H; subst. split; [exact H0|]. apply Henv. }
  destruct (sys_popen command w0) as [p w1|f w1]; simpl.
  2: { intros H; inversion H; subst. split; [exact H1|]. apply Henv. }
  destruct (exits p) as [oe w2|f w2]; simpl.
  2: { intros H; inversion H; subst. split; [exact H2|]. apply Henv. }
  destruct (sys_print (snd oe) w2) as [[] w3|f w3]; simpl;
    intros H; inversion H; subst.
  - split; [apply H3|discriminate].
  - split; [exact H2|]. apply Henv.
Qed.

Lemma behaves_query command :
  is_query command = true ->
  behaves (_execute_command command None) environment_error quiet.
Proof.
  intros Hq. apply behaves_execute_shown; try intros err; split; simpl;
    rewrite ?Hq; reflexivity.
Qed.

Lemma behaves_any_command shown command :
  behaves (execute_shown shown command None) environment_error (fun _ => True).
Proof. apply behaves_execute_shown; auto. Qed.

Lemma behaves_command_no_write shown command :
  behaves (execute_shown shown command None) environment_error
    (fun t => writes t = []).
Proof. apply behaves_execute_shown; reflexivity. Qed.

Lemma behaves_rev_parse repo rev :
  behaves (_rev_parse_in_repo repo rev) environment_error quiet.
Proof.
  destruct rev as [rev|]; cbn [_rev_parse_in_repo].
  - apply behaves_bind; [apply quiet_app|now apply behaves_query|].
    intros out. destruct (Py.splitlines _); apply behaves_ret; apply quiet_nil.
  - apply behaves_ret. apply quiet_nil.
Qed.

Lemma behaves_print_refs output :
  behaves (print_refs (World := World) output) environment_error quiet.
Proof.
  induction output as [|ref rest IH]; cbn [print_refs].
  - apply behaves_ret. apply quiet_nil.
  - apply behaves_bind; [apply quiet_app| |intros _; exact IH].
    apply behaves_print; split; reflexivity.
Qed.

Lemma behaves_determine_machine repo :
  behaves (_determine_machine_from_repo repo) environment_error quiet.
Proof.
  unfold _determine_machine_from_repo.
  apply behaves_bind; [apply quiet_app|now apply behaves_query|].
  intros out. destruct (remove_ostree_refs _) as [|m [|m' l]].
  2: { apply behaves_ret. apply quiet_nil. }
  all: repeat (apply behaves_bind; [apply quiet_app| |intros _]);
    try (apply behaves_print; split; reflexivity);
    try apply behaves_print_refs;
    apply behaves_ret; apply quiet_nil.
Qed.

Lemma behaves_path_query query path :
  behaves (path_query (World := World) query path) environment_error quiet.
Proof.
  intros w r w' t. unfold path_query.
  destruct (query path w) as [f|b]; intros H; inversion H; subst;
    (split; [apply quiet_nil|]); [|discriminate].
  intros e He. inversion He. now exists f.
Qed.

Lemma behaves_ensure_is_directory path :
  behaves (ensure_is_directory path)
    (fun e => directory_error path e \/ environment_error e) quiet.
Proof.
  unfold ensure_is_directory.
  apply behaves_bind; [apply quiet_app| |intros found].
  - eapply behaves_weaken; [|apply behaves_path_query]. auto.
  - destruct (negb found).
    { apply behaves_raise; [apply quiet_nil|]. left. now left. }
    apply behaves_bind; [apply quiet_app| |intros is_dir].
    + eapply behaves_weaken; [|apply behaves_path_query]. auto.
    + destruct (negb is_dir).
      * apply behaves_raise; [apply quiet_nil|]. left. now right.
      * apply behaves_ret, quiet_nil.
Qed.

(** The exceptions of [main] up to the machine name: the [ValueError]
    of the directory check or a failure of the environment. *)
Lemma behaves_main_machine parsed :
  behaves (main_machine parsed)
    (fun e => directory_error (Args.repo (fst parsed)) e \/ environment_error e)
    quiet.
Proof.
  destruct parsed as [args unknown]. unfold main_machine, _parse_args.
  cbn [fst].
  apply behaves_bind; [apply quiet_app| |intros a].
  - apply behaves_bind; [apply quiet_app| |intros _].
    + eapply behaves_weaken; [intros e He; right; exact He|].
      destruct (0 <? List.length unknown)%nat;
        [apply behaves_warning|apply behaves_ret]; split; reflexivity.
    + apply behaves_bind; [apply quiet_app| |intros _; apply behaves_ret, quiet_nil].
      apply behaves_ensure_is_directory.
  - eapply behaves_weaken; [intros e He; right; exact He|].
    apply behaves_bind; [apply quiet_app| |intros _].
    + unfold os_makedirs. apply behaves_call; split; reflexivity.
    + destruct (Args.machine a).
      * apply behaves_ret, quiet_nil.
      * apply behaves_determine_machine.
Qed.

Lemma behaves_generate_tarball outputpath (T : list event -> Prop) :
  (forall t1 t2, T t1 -> T t2 -> T (t1 ++ t2)%list) ->
  (forall shown command,
      behaves (execute_shown shown command None) environment_error T) ->
  (forall text, T [Printed text]) -> T [] ->
  behaves (_generate_tarball outputpath) environment_error T.
Proof.
  intros Happ Hcmd Hprint Hnil. unfold _generate_tarball.
  apply behaves_bind; [exact Happ|apply Hcmd|intros out].
  apply behaves_bind; [exact Happ|apply behaves_print; auto|intros _].
  apply behaves_bind; [exact Happ|apply Hcmd|intros out'].
  apply behaves_print; auto.
Qed.

(** What follows the metadata file in
    [_generate_static_delta_between_shas]. *)
Lemma behaves_generate_delta command outputpath (T : list event -> Prop) :
  (forall t1 t2, T t1 -> T t2 -> T (t1 ++ t2)%list) ->
  (forall shown command,
      behaves (execute_shown shown command None) environment_error T) ->
  (forall text, T [Printed text]) -> T [] ->
  behaves (bind (_execute_command command None)
             (fun out => bind (print out)
                           (fun _ => _generate_tarball outputpath)))
    environment_error T.
Proof.
  intros Happ Hcmd Hprint Hnil.
  apply behaves_bind; [exact Happ|apply Hcmd|intros out].
  apply behaves_bind; [exact Happ|apply behaves_print; auto|intros _].
  now apply behaves_generate_tarball.
Qed.

Lemma behaves_main_generate args machine to_sha from_sha :
  behaves (main_generate args machine to_sha from_sha) environment_error
    (fun _ => True).
Proof.
  unfold main_generate, _generate_static_delta_between_shas,
    _transfer_sha_between_repos, _generate_metadata.
  apply behaves_bind; [auto| |intros _].
  { destruct (negb _).
    - apply behaves_bind; [auto| |intros ?];
        [apply behaves_any_command|apply behaves_print; exact I].
    - now apply behaves_ret. }
  apply behaves_bind; [auto| |intros _].
  { apply behaves_bind; [auto| |intros _].
    - destruct from_sha; apply behaves_call; exact I.
    - apply behaves_generate_delta; auto. apply behaves_any_command. }
  destruct (Args.generate_bin args); [|now apply behaves_ret].
  apply behaves_bind; [auto| |intros ?];
    [apply behaves_any_command|apply behaves_print; exact I].
Qed.

(** A warning followed by an exit: the exit, unless the warning itself
    fails. *)
Lemma warning_then_exit {A} message code w :
  exists e w' t,
    bind (warning message) (fun _ => sys_exit (A := A) code) w = (Raise e, w', t)
    /\ (e = SystemExit code \/ environment_error e)
    /\ quiet t.
Proof.
  unfold bind, warning, call, sys_exit, raise.
  destruct (sys_warn message w) as [[] w1|f w1].
  - do 3 eexists. split; [reflexivity|]. split; [now left|split; reflexivity].
  - do 3 eexists. split; [reflexivity|]. split; [right; now exists f|apply quiet_nil].
Qed.

(** [main] once the "to" revision is resolved.  It ends with [main]
    returning, with a failure of the environment, or, when there is a
    "from" expression that does not resolve, with a quiet trace and
    the exit with status 1. *)
Lemma main_resolve_from_cases args machine to_sha w :
  exists r w' t,
    main_resolve_from args machine to_sha (from_rev_of args machine) w
    = (r, w', t)
    /\ (r = Return tt
        \/ (exists e, r = Raise e /\ environment_error e)
        \/ ((exists from_rev w3 t3,
                from_rev_of args machine = Some from_rev
                /\ _rev_parse_in_repo (Args.repo args) (Some from_rev) w
                   = (Return None, w3, t3))
            /\ quiet t
            /\ exists e, r = Raise e
                         /\ (e = SystemExit 1 \/ environment_error e))).
Proof.
  assert (Hgen : forall from_sha w3,
             exists r w' t,
               main_generate args machine to_sha from_sha w3 = (r, w', t)
               /\ (r = Return tt \/ exists e, r = Raise e /\ environment_error e)).
  { intros from_sha w3.
    destruct (main_generate args machine to_sha from_sha w3)
      as [[[[]|e] w4] t4] eqn:Hg.
    - do 3 eexists. split; [reflexivity|now left].
    - do 3 eexists. split; [reflexivity|]. right. exists e. split; [reflexivity|].
      now apply (behaves_main_generate _ _ _ _ _ _ _ _ Hg). }
  unfold main_resolve_from.
  destruct (from_rev_of args machine) as [from_rev|].
  - destruct (_rev_parse_in_repo (Args.repo args) (Some from_rev) w)
      as [[[[from_sha|]|e] w3] t3] eqn:Hfrom.
    + erewrite bind_return by exact Hfrom.
      destruct (Hgen (Some from_sha) w3) as (r & w' & t & -> & Hr).
      do 3 eexists. split; [reflexivity|]. tauto.
    + erewrite bind_return by exact Hfrom.
      destruct (warning_then_exit (A := unit)
                  ("rev " ++ from_rev ++ " not found in " ++ Args.repo args)
                  1 w3) as (e & w' & t & -> & He & Hq).
      do 3 eexists. split; [reflexivity|]. right. right. split; [|split].
      * now exists from_rev, w3, t3.
      * apply quiet_app; [|exact Hq].
        now apply (behaves_rev_parse _ _ _ _ _ _ Hfrom).
      * now exists e.
    + erewrite bind_raise by exact Hfrom.
      do 3 eexists. split; [reflexivity|]. right. left.
      exists e. split; [reflexivity|].
      now apply (behaves_rev_parse _ _ _ _ _ _ Hfrom).
  - erewrite bind_return by apply rev_parse_none.
    destruct (Hgen None w) as (r & w' & t & -> & Hr).
    do 3 eexists. split; [reflexivity|]. tauto.
Qed.

(** How a run of [main] ends: without machine name and with the exit
    with status 2; with an unresolved revision and the exit with status
    1, unless the warning itself fails; with [main] returning; with a
    failure of the environment; or with the [ValueError] of the
    directory check. *)
Lemma main_cases parsed w :
  exists r w' t,
    main parsed w = (r, w', t)
    /\ ((machine_undetermined parsed w /\ r = Raise (SystemExit 2) /\ quiet t)
        \/ (revision_unresolved parsed w /\ quiet t
            /\ exists e, r = Raise e
                         /\ (e = SystemExit 1 \/ environment_error e))
        \/ r = Return tt
        \/ (exists e, r = Raise e /\ environment_error e)
        \/ (exists e, r = Raise e
                      /\ directory_error (Args.repo (fst parsed)) e /\ quiet t)).
Proof.
  destruct (main_machine parsed w) as [[r1 w1] t1] eqn:Hm.
  destruct (behaves_main_machine parsed _ _ _ _ Hm) as [Hq1 He1].
  destruct r1 as [[machine|]|e].
  - rewrite (main_with_machine _ _ _ _ _ Hm).
    unfold main_resolve.
    destruct (_rev_parse_in_repo (update_repo_of (fst parsed))
                (Some (to_rev_of (fst parsed) machine)) w1)
      as [[r2 w2] t2] eqn:Hto.
    destruct (behaves_rev_parse _ _ _ _ _ _ Hto) as [Hq2 He2].
    destruct r2 as [[to_sha|]|e].
    + erewrite bind_return by exact Hto.
      destruct (main_resolve_from_cases (fst parsed) machine to_sha w2)
        as (r & w' & t & -> & [->|[(e & -> & He)|(Hun & Hq & e & -> & He)]]).
      * do 3 eexists. split; [reflexivity|]. tauto.
      * do 3 eexists. split; [reflexivity|]. right. right. right. left.
        now exists e.
      * do 3 eexists. split; [reflexivity|]. right. left. split; [|split].
        -- exists machine, w1, t1. split; [exact Hm|]. cbv zeta. right.
           destruct Hun as (from_rev & w3 & t3 & Hrev & Hfrom).
           now exists to_sha, w2, t2, from_rev, w3, t3.
        -- simpl. apply quiet_app; [exact Hq1|]. now apply quiet_app.
        -- now exists e.
    + erewrite bind_return by exact Hto.
      destruct (warning_then_exit (A := unit)
                  ("rev " ++ to_rev_of (fst parsed) machine ++ " not found in "
                   ++ update_repo_of (fst parsed)) 1 w2)
        as (e & w' & t & -> & He & Hq).
      do 3 eexists. split; [reflexivity|]. right. left. split; [|split].
      * exists machine, w1, t1. split; [exact Hm|]. cbv zeta. left.
        now exists w2, t2.
      * simpl. apply quiet_app; [exact Hq1|]. now apply quiet_app.
      * now exists e.
    + erewrite bind_raise by exact Hto.
      do 3 eexists. split; [reflexivity|]. right. right. right. left.
      exists e. split; [reflexivity|]. now apply He2.
  - rewrite (main_no_machine _ _ _ _ Hm).
    do 3 eexists. split; [reflexivity|]. left. split; [|split].
    + now exists w1, t1.
    + reflexivity.
    + now rewrite app_nil_r.
  - rewrite (main_machine_raises _ _ _ _ _ Hm).
    do 3 eexists. split; [reflexivity|].
    destruct (He1 e eq_refl) as [Hd|Henv].
    + right. right. right. right. now exists e.
    + right. right. right. left. now exists e.
Qed.








End Endings.


(** With an output path that is a regular file, [os.makedirs] raises
    [FileExistsError]: the script ends with status 1 before it has
    started any subprocess. *)
Example output_is_a_file_exits_1 :
  script (os := scripted_failing scenario true (fun _ => false))
    (scenario_args, []) []
  = (Raise (OfEnvironment (OSError "FileExistsError")), [], [])
  /\ exit_status
       (fst (fst (script (os := scripted_failing scenario true (fun _ => false))
                    (scenario_args, []) []))) = 1%Z.
Proof. split; reflexivity. Qed.

(** Without [tar], the script ends with status 1 after it has written
    the metadata and generated the delta. *)
Example missing_tar_exits_1 :
  let os := scripted_failing scenario false
              (fun command => command_eqb command (tar_command "/out")) in
  fst (main (os := os) (scenario_args, []) [])
  = (Raise (OfEnvironment (OSError "FileNotFoundError")),
     [("/out/metadata", "From-sha:def456" ++ nl ++ "To-sha:abc123" ++ nl)])
  /\ writes (snd (main (os := os) (scenario_args, []) []))
     = [("/out/metadata", "From-sha:def456" ++ nl ++ "To-sha:abc123" ++ nl)]
  /\ commands (snd (main (os := os) (scenario_args, []) []))
     = [refs_command "/repo"; rev_parse_command "/repo" "myboard";
        rev_parse_command "/repo" "myboard^";
        static_delta_command "/repo" "/out" "abc123" ["--from"; "def456"]]
  /\ exit_status (fst (fst (script (os := os) (scenario_args, []) []))) = 1%Z.
Proof. repeat split. Qed.

(* ================================================================= *)
(** ** The metadata file *)

Section Metadata.

Context {World : Type} {os : Sys World}.

Lemma bind_returns {A B} (m : M World A) (f : A -> M World B) w b w' t :
  bind m f w = (Return b, w', t) ->
  exists a w1 t1 t2,
    m w = (Return a, w1, t1) /\ f a w1 = (Return b, w', t2)
    /\ t = (t1 ++ t2)%list.
Proof.
  unfold bind.
  destruct (m w) as [[[a|e] w1] t1]; [|discriminate].
  destruct (f a w1) as [[r2 w2] t2] eqn:Hf.
  intros H. inversion H; subst. now exists a, w1, t1, t2.
Qed.

(** A revision that [_rev_parse_in_repo] returns is a line of the
    output of [rev-parse]. *)
Lemma rev_parse_single_line repo rev w sha w' t :
  _rev_parse_in_repo repo rev w = (Return (Some sha), w', t) ->
  single_line sha = true.
Proof.
  destruct rev as [rev|]; [|discriminate].
  cbn [_rev_parse_in_repo]. intros H. apply bind_returns in H.
  destruct H as (out & w1 & t1 & t2 & _ & H & _).
  pose proof (splitlines_single_line (Py.rstrip out)) as HF.
  destruct (Py.splitlines (Py.rstrip out)) as [|l ls]; [discriminate|].
  inversion H; subst. now inversion HF.
Qed.

(** A machine name that [_determine_machine_from_repo] returns is a
    line of the listing of the refs. *)
Lemma determine_machine_single_line repo w machine w' t :
  _determine_machine_from_repo repo w = (Return (Some machine), w', t) ->
  single_line machine = true.
Proof.
  unfold _determine_machine_from_repo. intros H. apply bind_returns in H.
  destruct H as (out & w1 & t1 & t2 & _ & H & _).
  pose proof (splitlines_single_line (Py.rstrip out)) as HF.
  pose proof (for_ref_in_output_incl
                (List.length (Py.splitlines (Py.rstrip out))) 0
                (Py.splitlines (Py.rstrip out))) as Hi.
  fold (remove_ostree_refs (Py.splitlines (Py.rstrip out))) in Hi.
  destruct (remove_ostree_refs _) as [|m [|m' l]].
  2: { inversion H; subst. rewrite Forall_forall in HF.
       apply HF, Hi. now left. }
  all: do 3 (apply bind_returns in H;
             destruct H as (? & ? & ? & ? & _ & H & _)).
  all: inversion H.
Qed.

(** C6 (as amended): the first thing the delta step does is to write
    to [metadata], in the output directory, the text [From-sha:<id>],
    line feed, [To-sha:<id>], line feed, where the first identifier is
    the resolved from-hash when there is one and the machine name
    otherwise, and the second is the resolved to-hash, both written
    untransformed, whatever they are; the step writes no other file,
    and when the write fails it does nothing else.  When neither
    identifier contains a line boundary, the text is exactly those two
    lines and reading it back gives exactly the two identifiers.  No
    revision that [_rev_parse_in_repo] returns and no machine name that
    [_determine_machine_from_repo] returns contains a line boundary. *)
Theorem metadata_roundtrip repo outputpath machine to_sha from_sha w :
  let from_id := match from_sha with Some f => f | None => machine end in
  let path := Py.path_join outputpath "metadata" in
  let text := "From-sha:" ++ from_id ++ nl ++ "To-sha:" ++ to_sha ++ nl in
  let run :=
    _generate_static_delta_between_shas repo outputpath machine to_sha from_sha w
  in
  match sys_write path text w with
  | Done _ _ =>
      exists r w' t, run = (r, w', WriteFile path text :: t) /\ writes t = []
  | Fails f w1 => run = (Raise (OfEnvironment f), w1, [])
  end
  /\ (single_line from_id = true ->
      single_line to_sha = true ->
      Py.splitlines text = ["From-sha:" ++ from_id; "To-sha:" ++ to_sha]
      /\ parse_metadata text = Some (from_id, to_sha))
  /\ (forall repo' rev w0 sha w1 t1,
        _rev_parse_in_repo repo' rev w0 = (Return (Some sha), w1, t1) ->
        single_line sha = true)
  /\ (forall repo' w0 name w1 t1,
        _determine_machine_from_repo repo' w0 = (Return (Some name), w1, t1) ->
        single_line name = true).
Proof.
  intros from_id path text run.
  assert (Htext : text = metadata_text from_id to_sha).
  { unfold text, metadata_text. now rewrite !string_app_assoc. }
  split; [|split; [|split]].
  - rewrite Htext. subst run path.
    unfold _generate_static_delta_between_shas.
    assert (Hmeta : match from_sha with
                    | None => _generate_metadata outputpath machine to_sha
                    | Some f => _generate_metadata outputpath f to_sha
                    end = _generate_metadata outputpath from_id to_sha)
      by (subst from_id; now destruct from_sha).
    rewrite Hmeta.
    destruct (sys_write _ _ w) as [[] w1|f w1] eqn:Hw.
    + erewrite bind_return
        by (unfold _generate_metadata, call; rewrite Hw; reflexivity).
      match goal with
      | |- context [after _ (?rest w1)] =>
          destruct (rest w1) as [[r w'] t] eqn:Hrest
      end.
      exists r, w', t. split; [reflexivity|].
      refine (proj1 (behaves_generate_delta _ _ (fun t => writes t = [])
                       no_writes_app behaves_command_no_write
                       (fun _ => eq_refl) eq_refl _ _ _ _ Hrest)).
    + apply bind_raise. unfold _generate_metadata, call. now rewrite Hw.
  - intros Hf Ht. rewrite Htext.
    assert (Hlines := metadata_text_lines from_id to_sha Hf Ht).
    split; [exact Hlines|].
    unfold parse_metadata. rewrite Hlines.
    now rewrite !strip_prefix_app.
  - intros repo' rev w0 sha w1 t1. apply rev_parse_single_line.
  - intros repo' w0 name w1 t1. apply determine_machine_single_line.
Qed.

End Metadata.

(** An identifier with a line feed in it breaks the format: the file
    has three lines, the reader does not return the identifiers, and no
    reader could, since another pair of identifiers gives the same
    file.  The script writes such a file for [--empty] with a
    [--machine] name that contains a line feed. *)
Lemma metadata_not_two_lines :
  Py.splitlines (metadata_text ("a" ++ nl ++ "To-sha:b") "c")
  = ["From-sha:a"; "To-sha:b"; "To-sha:c"]
  /\ parse_metadata (metadata_text ("a" ++ nl ++ "To-sha:b") "c")
     <> Some ("a" ++ nl ++ "To-sha:b", "c")
  /\ metadata_text ("a" ++ nl ++ "To-sha:b") "c"
     = metadata_text "a" ("b" ++ nl ++ "To-sha:c")
  /\ In (WriteFile "/out/metadata"
           ("From-sha:a" ++ nl ++ "To-sha:b" ++ nl ++ "To-sha:c" ++ nl))
        (snd (main (os := scripted_table [(rev_parse_command "/repo" "c", "c" ++ nl)])
                ({| Args.repo := "/repo"; Args.output := "/out";
                    Args.update_repo := None;
                    Args.machine := Some ("a" ++ nl ++ "To-sha:b");
                    Args.to_sha := Some "c"; Args.from_sha := None;
                    Args.generate_bin := false; Args.empty := true |}, [])
                [])).
Proof.
  repeat split; try reflexivity.
  - discriminate.
  - vm_compute. tauto.
Qed.

Lemma metadata_roundtrip_witness :
  (exists r w' t,
      _generate_static_delta_between_shas (os := scripted_table [])
        "/repo" "/out" "myboard" "abc123" (Some "def456") []
      = (r, w',
         WriteFile "/out/metadata"
           ("From-sha:def456" ++ nl ++ "To-sha:abc123" ++ nl) :: t)
      /\ writes t = [])
  /\ Py.splitlines ("From-sha:def456" ++ nl ++ "To-sha:abc123" ++ nl)
     = ["From-sha:def456"; "To-sha:abc123"]
  /\ parse_metadata ("From-sha:def456" ++ nl ++ "To-sha:abc123" ++ nl)
     = Some ("def456", "abc123").
Proof.
  destruct (metadata_roundtrip (os := scripted_table [])
              "/repo" "/out" "myboard" "abc123" (Some "def456") [])
    as (Hwrite & Hread & _).
  split; [exact Hwrite|]. apply Hread; reflexivity.
Defined.

(* ================================================================= *)
(** ** Concrete runs *)

(** The end-to-end scenario of the spec: the machine is detected, the
    revisions resolve to [def456] and [abc123], and the metadata file is
    written before the delta is generated and packed. *)
Example scenario_run :
  main (os := scripted_table scenario) (scenario_args, []) []
  = (Return tt,
     [("/out/metadata", "From-sha:def456" ++ nl ++ "To-sha:abc123" ++ nl)],
     [Makedirs "/out";
      Printed "['ostree', '--repo=/repo', 'refs']";
      Popen (refs_command "/repo"); Printed EmptyString;
      Printed "['ostree', '--repo=/repo', 'rev-parse', 'myboard']";
      Popen (rev_parse_command "/repo" "myboard"); Printed EmptyString;
      Printed "['ostree', '--repo=/repo', 'rev-parse', 'myboard^']";
      Popen (rev_parse_command "/repo" "myboard^"); Printed EmptyString;
      WriteFile "/out/metadata" ("From-sha:def456" ++ nl ++ "To-sha:abc123" ++ nl);
      Printed (Py.repr_list
               (static_delta_command "/repo" "/out" "abc123" ["--from"; "def456"]));
      Popen (static_delta_command "/repo" "/out" "abc123" ["--from"; "def456"]);
      Printed EmptyString; Printed EmptyString;
      Printed ("['tar', '-cf', '/out/data.tar', '--directory', "
               ++ "PosixPath('/out'), '--exclude=./data.tar', '.']");
      Popen (tar_command "/out"); Printed EmptyString; Printed EmptyString;
      Printed (Py.repr_list (gzip_command "/out"));
      Popen (gzip_command "/out"); Printed EmptyString; Printed EmptyString]).
Proof. reflexivity. Qed.

Lemma default_from_revision_witness :
  (exists r w' t more,
      main (os := scripted_table scenario) (scenario_args, []) [] = (r, w', t)
      /\ commands t
         = ([refs_command "/repo"; rev_parse_command "/repo" "myboard";
             rev_parse_command "/repo" "myboard^"] ++ more)%list)
  /\ (exists r w' t more,
        main (os := scripted_table scenario)
          (with_update_repo scenario_args "/update", []) [] = (r, w', t)
        /\ commands t
           = ([refs_command "/repo"; rev_parse_command "/update" "myboard";
               rev_parse_command "/repo" "myboard"] ++ more)%list).
Proof.
  split.
  - destruct (default_from_revision (os := scripted_table scenario)
                scenario_args [] [] "myboard" []
                (snd (main_machine (os := scripted_table scenario)
                        (scenario_args, []) []))
                "abc123" [] eq_refl eq_refl eq_refl eq_refl)
      as (from_rev & r & w' & t & more & Hmain & Hc & _ & Hsame & _).
    rewrite (Hsame (or_introl eq_refl)) in Hc.
    exists r, w', t, more. split; [exact Hmain|exact Hc].
  - destruct (default_from_revision (os := scripted_table scenario)
                (with_update_repo scenario_args "/update") [] [] "myboard" []
                (snd (main_machine (os := scripted_table scenario)
                        (with_update_repo scenario_args "/update", []) []))
                "fff999" [] eq_refl eq_refl eq_refl eq_refl)
      as (from_rev & r & w' & t & more & Hmain & Hc & _ & _ & Hdiffer).
    rewrite (Hdiffer "/update" eq_refl) in Hc by discriminate.
    exists r, w', t, more. split; [exact Hmain|exact Hc].
Defined.

Lemma empty_resolves_no_from_revision_witness :
  exists w' t,
    main (os := scripted_table scenario)
      (with_empty scenario_args (Some "def456"), []) [] = (Return tt, w', t)
    /\ commands t
       = [refs_command "/repo"; rev_parse_command "/repo" "myboard";
          static_delta_command "/repo" "/out" "abc123" ["--empty"];
          tar_command "/out"; gzip_command "/out"].
Proof.
  exact (empty_resolves_no_from_revision (os := scripted_table scenario)
           (with_empty scenario_args (Some "def456")) [] [] "myboard" []
           (snd (main_machine (os := scripted_table scenario)
                   (with_empty scenario_args (Some "def456"), []) []))
           "abc123" [] eq_refl eq_refl eq_refl).
Defined.

Lemma unresolved_revision_exits_1_witness :
  (exists t,
      script (os := scripted_table
                      [(refs_command "/repo", "myboard" ++ nl)])
        (scenario_args, []) []
      = (Raise (SystemExit 1), [],
         (t ++ [Warn "rev myboard not found in /repo"])%list))
  /\ (exists t,
        script (os := scripted_table
                        [(refs_command "/repo", "myboard" ++ nl);
                         (rev_parse_command "/repo" "myboard", "abc123" ++ nl)])
          (scenario_args, []) []
        = (Raise (SystemExit 1), [],
           (t ++ [Warn "rev myboard^ not found in /repo"])%list)).
Proof.
  split.
  - pose proof (unresolved_revision_exits_1
                  (os := scripted_table [(refs_command "/repo", "myboard" ++ nl)])
                  scenario_args [] [] "myboard" []
                  (snd (main_machine
                          (os := scripted_table
                                   [(refs_command "/repo", "myboard" ++ nl)])
                          (scenario_args, []) []))
                  eq_refl) as [Hto _].
    rewrite (Hto eq_refl). eexists.
    rewrite app_assoc. reflexivity.
  - pose proof (unresolved_revision_exits_1
                  (os := scripted_table
                           [(refs_command "/repo", "myboard" ++ nl);
                            (rev_parse_command "/repo" "myboard", "abc123" ++ nl)])
                  scenario_args [] [] "myboard" []
                  (snd (main_machine
                          (os := scripted_table
                                   [(refs_command "/repo", "myboard" ++ nl);
                                    (rev_parse_command "/repo" "myboard",
                                     "abc123" ++ nl)])
                          (scenario_args, []) []))
                  eq_refl) as [_ Hfrom].
    rewrite (Hfrom "myboard^" ltac:(discriminate) eq_refl eq_refl). eexists.
    rewrite 2 app_assoc. reflexivity.
Defined.

Lemma transfer_when_repositories_differ_witness :
  (exists w' t t_before t_after,
      main (os := scripted_table scenario)
        (with_update_repo scenario_args "/update", []) [] = (Return tt, w', t)
      /\ t = (t_before
              ++ [Printed "['ostree', '--repo=/repo', 'pull-local', '/update', 'fff999']";
                  Popen (pull_local_command "/update" "/repo" "fff999");
                  Printed EmptyString]
              ++ [Printed EmptyString;
                  WriteFile "/out/metadata"
                    ("From-sha:abc123" ++ nl ++ "To-sha:fff999" ++ nl)]
              ++ [Printed (Py.repr_list
                             (static_delta_command "/repo" "/out" "fff999"
                                ["--from"; "abc123"]));
                  Popen (static_delta_command "/repo" "/out" "fff999"
                           ["--from"; "abc123"]);
                  Printed EmptyString]
              ++ t_after)%list
      /\ commands t
         = (commands t_before
            ++ [pull_local_command "/update" "/repo" "fff999";
                static_delta_command "/repo" "/out" "fff999" ["--from"; "abc123"]]
            ++ commands t_after)%list
      /\ existsb is_pull_local (commands t_before) = false
      /\ existsb is_pull_local (commands t_after) = false)
  /\ existsb is_pull_local
       (commands (snd (main (os := scripted_table scenario) (scenario_args, []) [])))
     = false.
Proof.
  split.
  - apply (proj1 (transfer_when_repositories_differ
                    (os := scripted_table scenario)
                    (with_update_repo scenario_args "/update") [] [])
             "myboard" []
             (snd (main_machine (os := scripted_table scenario)
                     (with_update_repo scenario_args "/update", []) []))
             "fff999" []).
    + discriminate.
    + reflexivity.
    + reflexivity.
    + intros from_rev H. vm_compute in H. inversion H. discriminate.
  - apply (proj2 (transfer_when_repositories_differ
                    (os := scripted_table scenario) scenario_args [] [])
             (fst (fst (main (os := scripted_table scenario) (scenario_args, []) [])))
             (snd (fst (main (os := scripted_table scenario) (scenario_args, []) [])))).
    + reflexivity.
    + reflexivity.
Defined.


Lemma unknown_arguments_only_warn_witness :
  script (os := scripted_table scenario) (scenario_args, ["--verbose"; "-x"]) []
  = after [Warn "unsupported arguments: ['--verbose', '-x']"]
          (script (os := scripted_table scenario) (scenario_args, []) []).
Proof.
  apply (unknown_arguments_only_warn (os := scripted_table scenario)
           scenario_args ["--verbose"; "-x"] []).
  discriminate.
Defined.

(* ================================================================= *)
(** ** Machine detection: what the loop does get right *)

Lemma list_remove_candidates x l :
  Py.startswith x "ostree" = true ->
  candidates (Py.list_remove x l) = candidates l.
Proof.
  intros Hx. induction l as [|y l IH]; simpl; [reflexivity|].
  destruct (String.eqb_spec x y) as [<-|Hne].
  - unfold is_candidate. now rewrite Hx.
  - simpl. now rewrite IH.
Qed.

Lemma for_ref_in_output_candidates fuel i output :
  candidates (for_ref_in_output fuel i output) = candidates output.
Proof.
  revert i output. induction fuel as [|fuel IH]; intros i output; simpl;
    [reflexivity|].
  destruct (nth_error output i) as [ref|]; [|reflexivity].
  destruct (Py.startswith ref "ostree") eqn:Href; [|apply IH].
  now rewrite IH, list_remove_candidates.
Qed.

Lemma list_remove_fresh x pre suf :
  ~ In x pre ->
  Py.list_remove x (pre ++ x :: suf)%list = (pre ++ suf)%list.
Proof.
  induction pre as [|y pre IH]; simpl; intros H.
  - now rewrite String.eqb_refl.
  - destruct (String.eqb_spec x y) as [->|Hne]; [tauto|].
    rewrite IH; tauto.
Qed.

(** The loop on a listing without repeated refs and without two
    [ostree] refs in a row: with [pre] behind the iterator and [suf]
    ahead, it ends with [pre] and the candidates of [suf]. *)
Lemma for_ref_in_output_exact fuel pre suf :
  NoDup (pre ++ suf) ->
  no_adjacent_ostree suf = true ->
  (List.length suf <= fuel)%nat ->
  for_ref_in_output fuel (List.length pre) (pre ++ suf)%list
  = (pre ++ candidates suf)%list.
Proof.
  revert pre suf. induction fuel as [|fuel IH]; intros pre suf Hnd Hadj Hfuel.
  - destruct suf; [reflexivity|simpl in Hfuel; lia].
  - destruct suf as [|x rest].
    + simpl. rewrite app_nil_r.
      assert (Hn : nth_error pre (List.length pre) = None)
        by (apply nth_error_None; lia).
      now rewrite Hn.
    + cbn [for_ref_in_output].
      rewrite nth_error_app2 by lia. rewrite Nat.sub_diag. cbn [nth_error].
      assert (Hx : ~ In x pre).
      { apply NoDup_remove_2 in Hnd. intros Hin. apply Hnd.
        apply in_or_app. now left. }
      assert (Hnd' : NoDup (pre ++ rest)) by now apply NoDup_remove_1 in Hnd.
      destruct (Py.startswith x "ostree") eqn:Hox.
      * rewrite list_remove_fresh by exact Hx.
        cbn [candidates filter]. unfold is_candidate at 1. rewrite Hox.
        cbn [negb].
        destruct rest as [|y rest'].
        { cbn [filter]. rewrite !app_nil_r. destruct fuel; [reflexivity|].
          cbn [for_ref_in_output].
          assert (Hn : nth_error pre (S (List.length pre)) = None)
            by (apply nth_error_None; lia).
          now rewrite Hn. }
        cbn [no_adjacent_ostree] in Hadj.
        apply andb_true_iff in Hadj. destruct Hadj as [Hxy Hadj].
        unfold is_candidate at 1 in Hxy. rewrite Hox in Hxy. simpl in Hxy.
        assert (Hadj' : no_adjacent_ostree rest' = true).
        { destruct rest' as [|z rest'']; [reflexivity|].
          cbn [no_adjacent_ostree] in Hadj.
          apply andb_true_iff in Hadj. tauto. }
        replace (pre ++ y :: rest')%list with ((pre ++ [y]) ++ rest')%list
          by (now rewrite <- app_assoc).
        replace (S (List.length pre)) with (List.length (pre ++ [y]))
          by (rewrite length_app; simpl; lia).
        rewrite IH.
        -- cbn [filter]. fold (candidates rest'). rewrite Hxy.
           now rewrite <- app_assoc.
        -- now rewrite <- app_assoc.
        -- exact Hadj'.
        -- simpl in Hfuel. lia.
      * cbn [candidates filter]. unfold is_candidate at 1. rewrite Hox.
        cbn [negb]. fold (candidates rest).
        assert (Hadj' : no_adjacent_ostree rest = true).
        { destruct rest as [|y rest']; [reflexivity|].
          cbn [no_adjacent_ostree] in Hadj.
          apply andb_true_iff in Hadj. tauto. }
        replace (pre ++ x :: rest)%list with ((pre ++ [x]) ++ rest)%list
          by (now rewrite <- app_assoc).
        replace (S (List.length pre)) with (List.length (pre ++ [x]))
          by (rewrite length_app; simpl; lia).
        rewrite IH.
        -- now rewrite <- app_assoc.
        -- now rewrite <- app_assoc.
        -- exact Hadj'.
        -- simpl in Hfuel. lia.
Qed.

Section Detection.

Context {World : Type} {os : OS World}.

Lemma determine_machine_result repo w :
  fst (fst (_determine_machine_from_repo repo w))
  = Return match remove_ostree_refs (output_lines (refs_command repo) w) with
           | [machine] => Some machine
           | _ => None
           end.
Proof.
  unfold _determine_machine_from_repo.
  erewrite bind_return by apply execute_command_no_timeout.
  fold (refs_command repo). unfold output_lines.
  destruct (remove_ostree_refs _) as [|m [|m' l]].
  2: reflexivity.
  all: do 2 (erewrite bind_return by reflexivity).
  all: match goal with
       | |- context [bind (print_refs ?l) _ ?w] =>
           destruct (print_refs_run l w) as (t & Hp & Hc)
       end.
  all: erewrite bind_return by exact Hp.
  all: reflexivity.
Qed.

(** X1: the loop of machine detection never discards a ref that does
    not start with [ostree], and what it leaves are refs of the
    listing: the refs that survive wrongly are [ostree] refs only. *)
Theorem detection_loop_keeps_candidates output :
  candidates (remove_ostree_refs output) = candidates output
  /\ (forall ref, In ref (remove_ostree_refs output) -> In ref output)
  /\ (List.length (remove_ostree_refs output) <= List.length output)%nat.
Proof.
  unfold remove_ostree_refs. split; [|split].
  - apply for_ref_in_output_candidates.
  - intros ref. apply for_ref_in_output_incl.
  - apply length_for_ref_in_output.
Qed.

(** X2: with two or more refs that do not start with [ostree], machine
    detection returns no machine, whatever the order of the listing. *)
Theorem several_candidates_no_machine repo w :
  (2 <= List.length (candidates (output_lines (refs_command repo) w)))%nat ->
  fst (fst (_determine_machine_from_repo repo w)) = Return None.
Proof.
  intros H. rewrite determine_machine_result.
  pose proof (for_ref_in_output_candidates
                (List.length (output_lines (refs_command repo) w)) 0
                (output_lines (refs_command repo) w)) as Hc.
  fold (remove_ostree_refs (output_lines (refs_command repo) w)) in Hc.
  destruct (remove_ostree_refs _) as [|m [|m' l]]; try reflexivity.
  rewrite <- Hc in H. simpl in H. destruct (is_candidate m); simpl in H; lia.
Qed.

(** X3: a machine name that detection returns is a ref of the listing
    and has no line boundary in it; when the listing has a ref that
    does not start with [ostree], the name returned is that ref and it
    is the only such ref; otherwise the name returned starts with
    [ostree]. *)
Theorem detected_machine_is_listed repo w machine :
  fst (fst (_determine_machine_from_repo repo w)) = Return (Some machine) ->
  In machine (output_lines (refs_command repo) w)
  /\ single_line machine = true
  /\ (candidates (output_lines (refs_command repo) w) = [machine]
      \/ (candidates (output_lines (refs_command repo) w) = []
          /\ Py.startswith machine "ostree" = true)).
Proof.
  rewrite determine_machine_result. intros H.
  pose proof (for_ref_in_output_candidates
                (List.length (output_lines (refs_command repo) w)) 0
                (output_lines (refs_command repo) w)) as Hc.
  pose proof (for_ref_in_output_incl
                (List.length (output_lines (refs_command repo) w)) 0
                (output_lines (refs_command repo) w)) as Hi.
  fold (remove_ostree_refs (output_lines (refs_command repo) w)) in Hc, Hi.
  destruct (remove_ostree_refs _) as [|m [|m' l]]; try discriminate.
  inversion H; subst m. clear H.
  assert (Hin : In machine (output_lines (refs_command repo) w))
    by (apply Hi; now left).
  split; [exact Hin|]. split.
  - pose proof (splitlines_single_line
                  (Py.rstrip (stdout_of (refs_command repo) w))) as HF.
    rewrite Forall_forall in HF. now apply HF.
  - rewrite <- Hc. simpl. unfold is_candidate.
    destruct (Py.startswith machine "ostree"); simpl; auto.
Qed.

(** X4: on a listing without repeated refs and without two [ostree]
    refs in a row, the loop leaves exactly the refs that do not start
    with [ostree], and detection returns the machine exactly when one
    such ref exists. *)
Theorem detection_exact_without_adjacent_ostree repo w :
  NoDup (output_lines (refs_command repo) w) ->
  no_adjacent_ostree (output_lines (refs_command repo) w) = true ->
  remove_ostree_refs (output_lines (refs_command repo) w)
  = candidates (output_lines (refs_command repo) w)
  /\ fst (fst (_determine_machine_from_repo repo w))
     = Return match candidates (output_lines (refs_command repo) w) with
              | [machine] => Some machine
              | _ => None
              end.
Proof.
  intros Hnd Hadj.
  assert (H : remove_ostree_refs (output_lines (refs_command repo) w)
              = candidates (output_lines (refs_command repo) w)).
  { unfold remove_ostree_refs.
    apply (for_ref_in_output_exact _ [] _ Hnd Hadj). lia. }
  split; [exact H|].
  rewrite determine_machine_result. now rewrite H.
Qed.

End Detection.

Lemma several_candidates_no_machine_witness :
  fst (fst (_determine_machine_from_repo
              (os := scripted_table
                       [(refs_command "/repo",
                         "board-a" ++ nl ++ "ostree/0/1/0" ++ nl ++ "board-b" ++ nl)])
              "/repo" []))
  = Return None.
Proof.
  apply (several_candidates_no_machine
           (os := scripted_table
                    [(refs_command "/repo",
                      "board-a" ++ nl ++ "ostree/0/1/0" ++ nl ++ "board-b" ++ nl)])
           "/repo" []).
  vm_compute. lia.
Defined.

Lemma detected_machine_is_listed_witness :
  In "myboard" (output_lines (os := scripted_table scenario) (refs_command "/repo") [])
  /\ single_line "myboard" = true
  /\ (candidates (output_lines (os := scripted_table scenario)
                    (refs_command "/repo") []) = ["myboard"]
      \/ (candidates (output_lines (os := scripted_table scenario)
                        (refs_command "/repo") []) = []
          /\ Py.startswith "myboard" "ostree" = true)).
Proof.
  apply (detected_machine_is_listed (os := scripted_table scenario) "/repo" []).
  reflexivity.
Defined.

Lemma detection_exact_without_adjacent_ostree_witness :
  remove_ostree_refs
    (output_lines (os := scripted_table scenario) (refs_command "/repo") [])
  = ["myboard"]
  /\ fst (fst (_determine_machine_from_repo (os := scripted_table scenario)
                 "/repo" []))
     = Return (Some "myboard").
Proof.
  apply (detection_exact_without_adjacent_ostree
           (os := scripted_table scenario) "/repo" []).
  - vm_compute. repeat constructor; simpl; intuition discriminate.
  - reflexivity.
Defined.

(* ================================================================= *)
(** ** What the runs of [main] write and create *)

Section Traces.

Context {World : Type} {os : OS World}.

Lemma print_refs_quiet output (w : World) :
  exists t, print_refs output w = (Return tt, w, t)
            /\ commands t = [] /\ writes t = [] /\ created t = [].
Proof.
  induction output as [|ref rest (t & IH & Hc & Hw & Hm)]; simpl.
  - exists []. repeat split.
  - erewrite bind_return by reflexivity. rewrite IH.
    eexists. split; [reflexivity|]. simpl. auto.
Qed.

Lemma determine_machine_quiet repo w :
  exists machine t,
    _determine_machine_from_repo repo w
    = (Return machine, world_after (refs_command repo) w, t)
    /\ commands t = [refs_command repo] /\ writes t = [] /\ created t = [].
Proof.
  unfold _determine_machine_from_repo.
  erewrite bind_return by apply execute_command_no_timeout.
  fold (refs_command repo).
  destruct (remove_ostree_refs _) as [|m [|m' l]].
  2: { do 2 eexists. repeat split. }
  all: do 2 (erewrite bind_return by reflexivity).
  all: match goal with
       | |- context [bind (print_refs ?l) _ ?w] =>
           destruct (print_refs_quiet l w) as (t & Hp & Hc & Hw & Hm)
       end.
  all: erewrite bind_return by exact Hp.
  all: do 2 eexists; split; [reflexivity|].
  all: simpl; rewrite commands_app, writes_app, created_app, Hc, Hw, Hm.
  all: repeat split.
Qed.

(** [main] up to the machine name, when [--repo] is a directory: the
    warning for unknown arguments if any, then the output directory,
    then the listing of the refs when the machine is not given. *)
Lemma main_machine_trace args unknown w :
  path_exists (Args.repo args) w = true ->
  path_is_dir (Args.repo args) w = true ->
  exists machine w1 t1,
    main_machine (args, unknown) w
    = (Return machine, w1,
       ((if (0 <? List.length unknown)%nat
         then [Warn ("unsupported arguments: " ++ Py.repr_list unknown)]
         else [])
        ++ Makedirs (Args.output args) :: t1)%list)
    /\ commands t1 = match Args.machine args with
                     | None => [refs_command (Args.repo args)]
                     | Some _ => []
                     end
    /\ writes t1 = [] /\ created t1 = [].
Proof.
  intros He Hd. unfold main_machine.
  erewrite bind_return by (apply parse_args_directory; assumption).
  erewrite bind_return by reflexivity.
  destruct (Args.machine args) as [m|].
  - do 3 eexists. split; [reflexivity|]. repeat split.
  - match goal with
    | |- context [_determine_machine_from_repo ?r ?w] =>
        destruct (determine_machine_quiet r w) as (m & t & Hm & Hc & Hw & Hk)
    end.
    rewrite Hm. do 3 eexists. split; [reflexivity|]. auto.
Qed.

Lemma generate_tarball_full outputpath w :
  exists w' t,
    _generate_tarball outputpath w = (Return tt, w', t)
    /\ commands t = [tar_command outputpath; gzip_command outputpath]
    /\ writes t = [] /\ created t = [].
Proof.
  unfold _generate_tarball. do 3 run_step.
  do 2 eexists. repeat split.
Qed.

Lemma generate_static_delta_full repo outputpath machine to_sha from_sha w :
  exists w' t,
    _generate_static_delta_between_shas repo outputpath machine to_sha from_sha w
    = (Return tt, w',
       WriteFile (Py.path_join outputpath "metadata")
         (metadata_text match from_sha with Some f => f | None => machine end
                        to_sha) :: t)
    /\ commands t =
       [static_delta_command repo outputpath to_sha
          match from_sha with
          | None => ["--empty"]
          | Some from_sha => ["--from"; from_sha]
          end;
        tar_command outputpath; gzip_command outputpath]
    /\ writes t = [] /\ created t = [].
Proof.
  unfold _generate_static_delta_between_shas.
  destruct from_sha as [f|]; do 3 run_step.
  all: match goal with
       | |- context [_generate_tarball ?o ?w] =>
           destruct (generate_tarball_full o w) as (w' & t & -> & Ht & Hw & Hk)
       end.
  all: do 2 eexists; split; [reflexivity|].
  all: simpl; rewrite Ht, Hw, Hk; repeat split.
Qed.

Lemma main_generate_full args machine to_sha from_sha w :
  exists w' t,
    main_generate args machine to_sha from_sha w = (Return tt, w', t)
    /\ commands t = generate_commands args to_sha from_sha
    /\ writes t
       = [(Py.path_join (Args.output args) "metadata",
           metadata_text match from_sha with Some f => f | None => machine end
                         to_sha)]
    /\ created t = [].
Proof.
  unfold main_generate, generate_commands, _transfer_sha_between_repos.
  destruct (negb (Args.repo args =? update_repo_of args));
    rewrite ?bind_assoc; repeat run_step.
  all: match goal with
       | |- context [bind (_generate_static_delta_between_shas ?r ?o ?m ?t ?f) _ ?w] =>
           destruct (generate_static_delta_full r o m t f w)
             as (w' & tr & H & Ht & Hw & Hk);
           erewrite bind_return by exact H
       end.
  all: destruct (Args.generate_bin args); repeat run_step.
  all: do 2 eexists; split; [reflexivity|].
  all: simpl; rewrite ?commands_app, ?writes_app, ?created_app, Ht, Hw, Hk.
  all: repeat split.
Qed.

End Traces.

Section Pipeline.

Context {World : Type} {os : OS World}.

(** [main] from the resolution of [to_rev] on, with what each case
    runs, writes and creates. *)
Lemma main_resolve_full args machine w :
  let to_command :=
    rev_parse_command (update_repo_of args) (to_rev_of args machine) in
  let w2 := world_after to_command w in
  match output_lines to_command w with
  | [] =>
      main_resolve args machine w
      = (Raise (SystemExit 1), w2,
         (execute_events to_command w
          ++ [Warn ("rev " ++ to_rev_of args machine ++ " not found in "
                    ++ update_repo_of args)])%list)
  | to_sha :: _ =>
      match from_rev_of args machine with
      | None =>
          exists w' t,
            main_resolve args machine w
            = (Return tt, w', (execute_events to_command w ++ t)%list)
            /\ commands t = generate_commands args to_sha None
            /\ writes t = [(Py.path_join (Args.output args) "metadata",
                            metadata_text machine to_sha)]
            /\ created t = []
      | Some from_rev =>
          let from_command := rev_parse_command (Args.repo args) from_rev in
          match output_lines from_command w2 with
          | [] =>
              main_resolve args machine w
              = (Raise (SystemExit 1), world_after from_command w2,
                 (execute_events to_command w ++ execute_events from_command w2
                  ++ [Warn ("rev " ++ from_rev ++ " not found in "
                            ++ Args.repo args)])%list)
          | from_sha :: _ =>
              exists w' t,
                main_resolve args machine w
                = (Return tt, w',
                   (execute_events to_command w
                    ++ execute_events from_command w2 ++ t)%list)
                /\ commands t = generate_commands args to_sha (Some from_sha)
                /\ writes t = [(Py.path_join (Args.output args) "metadata",
                                metadata_text from_sha to_sha)]
                /\ created t = []
          end
      end
  end.
Proof.
  intros to_command w2.
  destruct (output_lines to_command w) as [|to_sha rest] eqn:Hto.
  - now apply main_resolve_to_unresolved.
  - rewrite (main_resolve_to_resolved _ _ _ _ _ Hto).
    fold to_command. fold w2.
    destruct (from_rev_of args machine) as [from_rev|].
    + intros from_command.
      destruct (output_lines from_command w2) as [|from_sha rest'] eqn:Hfrom.
      * rewrite main_resolve_from_unresolved by exact Hfrom. reflexivity.
      * rewrite (main_resolve_from_resolved _ _ _ _ _ _ _ Hfrom).
        destruct (main_generate_full args machine to_sha (Some from_sha)
                    (world_after from_command w2))
          as (w' & t & Hg & Hc & Hw & Hk).
        fold from_command. rewrite Hg. exists w', t. auto.
    + rewrite main_resolve_from_empty.
      destruct (main_generate_full args machine to_sha None w2)
        as (w' & t & Hg & Hc & Hw & Hk).
      rewrite Hg. exists w', t. auto.
Qed.

Lemma main_no_directory_run args unknown w :
  path_exists (Args.repo args) w && path_is_dir (Args.repo args) w = false ->
  main (args, unknown) w
  = (Raise (ValueError
              (dq ++ Args.repo args ++ dq
               ++ (if path_exists (Args.repo args) w
                   then " is not a directory" else " does not exist"))),
     w,
     if (0 <? List.length unknown)%nat
     then [Warn ("unsupported arguments: " ++ Py.repr_list unknown)]
     else []).
Proof.
  intros H. unfold main.
  apply bind_raise. rewrite parse_args_run.
  unfold bind. rewrite ensure_is_directory_total. unfold ret, after.
  destruct (path_exists (Args.repo args) w); simpl in *.
  - rewrite H. simpl. now rewrite app_nil_r.
  - now rewrite app_nil_r.
Qed.

(** X5: [--repo] is checked before anything is done: when it is not an
    existing directory, [main] raises [ValueError] with a message that
    quotes the path and says which of the two it is, leaves the world as
    it was, creates no output directory and starts no subprocess; only
    the warning for unknown arguments comes first. *)
Theorem invalid_repo_stops_before_any_effect args unknown w :
  path_exists (Args.repo args) w && path_is_dir (Args.repo args) w = false ->
  exists t,
    main (args, unknown) w
    = (Raise (ValueError
                (dq ++ Args.repo args ++ dq
                 ++ (if path_exists (Args.repo args) w
                     then " is not a directory" else " does not exist"))),
       w, t)
    /\ commands t = [] /\ writes t = [] /\ created t = [].
Proof.
  intros H. rewrite (main_no_directory_run _ _ _ H).
  eexists. split; [reflexivity|].
  destruct (0 <? List.length unknown)%nat; repeat split.
Qed.


End Pipeline.

Section FailedRuns.

Context {World : Type} {os : Sys World}.

(** X7: in any environment, a run of [main] that ends with an
    exception other than a failure of the environment, that is, with
    one of the exits of the script or with the [ValueError] of the
    directory check, has written no file, and the only subprocesses it
    started asked the repository ([refs], [rev-parse]): no transfer, no
    delta and no archive is left half done by a failed resolution. *)
Theorem failed_run_writes_nothing args unknown w e w' t :
  main (args, unknown) w = (Raise e, w', t) ->
  ~ environment_error e ->
  writes t = [] /\ forallb is_query (commands t) = true.
Proof.
  intros Hrun Hne.
  destruct (main_cases (args, unknown) w)
    as (r & w2 & t2 & Hrun'
        & [(_ & _ & Hq)|[(_ & Hq & _)|[->|[(e' & -> & He)|(e' & _ & _ & Hq)]]]]);
    rewrite Hrun in Hrun'; inversion Hrun'; subst; try exact Hq.
  now destruct Hne.
Qed.


End FailedRuns.

(* ================================================================= *)
(** ** Successful runs *)

Section SuccessfulRuns.

Context {World : Type} {os : OS World}.

Lemma output_lines_single_line command w line :
  In line (output_lines command w) -> single_line line = true.
Proof.
  unfold output_lines.
  pose proof (splitlines_single_line (Py.rstrip (stdout_of command w))) as HF.
  rewrite Forall_forall in HF. apply HF.
Qed.

Lemma detected_machine_single_line repo w machine :
  fst (fst (_determine_machine_from_repo repo w)) = Return (Some machine) ->
  single_line machine = true.
Proof.
  rewrite determine_machine_result. intros H.
  pose proof (for_ref_in_output_incl
                (List.length (output_lines (refs_command repo) w)) 0
                (output_lines (refs_command repo) w)) as Hi.
  fold (remove_ostree_refs (output_lines (refs_command repo) w)) in Hi.
  destruct (remove_ostree_refs _) as [|m [|m' l]]; try discriminate.
  inversion H; subst m.
  apply (output_lines_single_line (refs_command repo) w).
  apply Hi. now left.
Qed.

Lemma main_machine_detected_single_line args unknown w machine w1 t1 :
  Args.machine args = None ->
  main_machine (args, unknown) w = (Return (Some machine), w1, t1) ->
  single_line machine = true.
Proof.
  intros Hnone Hm.
  destruct (path_exists (Args.repo args) w && path_is_dir (Args.repo args) w)
    eqn:Hdir.
  2: { destruct (main_machine_no_directory args unknown w Hdir)
         as (message & t & Hr & _).
       rewrite Hr in Hm. discriminate. }
  apply andb_true_iff in Hdir. destruct Hdir as [He Hd].
  unfold main_machine in Hm.
  erewrite bind_return in Hm by (apply parse_args_directory; assumption).
  erewrite bind_return in Hm by reflexivity.
  rewrite Hnone in Hm.
  match type of Hm with
  | context [_determine_machine_from_repo ?r ?w] =>
      pose proof (detected_machine_single_line r w machine) as Hs;
      destruct (_determine_machine_from_repo r w) as [[r' w'] t'] eqn:Hrun
  end.
  simpl in Hm, Hs. apply Hs. inversion Hm. reflexivity.
Qed.

Lemma main_machine_writes_nothing args unknown w machine w1 t1 :
  main_machine (args, unknown) w = (Return machine, w1, t1) ->
  writes t1 = [].
Proof.
  intros Hm.
  destruct (path_exists (Args.repo args) w && path_is_dir (Args.repo args) w)
    eqn:Hdir.
  - apply andb_true_iff in Hdir. destruct Hdir as [He Hd].
    destruct (main_machine_trace args unknown w He Hd)
      as (m & w1' & t1' & Hm' & _ & Hw' & _).
    rewrite Hm' in Hm. inversion Hm; subst.
    rewrite writes_app. simpl. rewrite Hw'.
    destruct (0 <? List.length unknown)%nat; reflexivity.
  - destruct (main_machine_no_directory args unknown w Hdir)
      as (message & t' & Hr & _).
    rewrite Hr in Hm. discriminate.
Qed.

(** X8: in a run without [--empty] whose two revisions resolve, [main]
    succeeds and its commands are, in this order: the listing of the
    refs when the machine is not given, [rev-parse] of the "to"
    expression in the update repository, [rev-parse] of the "from"
    expression in the source repository, the transfer when the
    repositories differ, the generation of the delta from the resolved
    "from" hash to the resolved "to" hash, [tar], [gzip], and the
    renaming to [data.bin] when [--generate_bin] is set and only then. *)
Theorem successful_run_commands args unknown w machine w1 t1
    to_sha rest from_rev from_sha rest' :
  main_machine (args, unknown) w = (Return (Some machine), w1, t1) ->
  let to_command :=
    rev_parse_command (update_repo_of args) (to_rev_of args machine) in
  let from_command := rev_parse_command (Args.repo args) from_rev in
  output_lines to_command w1 = to_sha :: rest ->
  from_rev_of args machine = Some from_rev ->
  output_lines from_command (world_after to_command w1) = from_sha :: rest' ->
  exists w' t,
    main (args, unknown) w = (Return tt, w', t)
    /\ commands t
       = (match Args.machine args with
          | None => [refs_command (Args.repo args)]
          | Some _ => []
          end
          ++ [to_command; from_command]
          ++ (if negb (Args.repo args =? update_repo_of args)
              then [pull_local_command (update_repo_of args) (Args.repo args) to_sha]
              else [])
          ++ [static_delta_command (Args.repo args) (Args.output args) to_sha
                ["--from"; from_sha];
              tar_command (Args.output args);
              gzip_command (Args.output args)]
          ++ (if Args.generate_bin args then [mv_command (Args.output args)]
              else []))%list.
Proof.
  intros Hm to_command from_command Hto Hrev Hfrom.
  rewrite (main_with_machine _ _ _ _ _ Hm). simpl fst.
  pose proof (main_resolve_full args machine w1) as Hcases.
  cbv zeta in Hcases. fold to_command in Hcases.
  rewrite Hto, Hrev in Hcases. fold from_command in Hcases.
  rewrite Hfrom in Hcases.
  destruct Hcases as (w' & t & -> & Hc & _).
  do 2 eexists. split; [reflexivity|].
  rewrite !commands_app, Hc, !commands_execute_events.
  destruct (main_machine_commands _ _ _ _ _ _ Hm)
    as [(message & Hr & _)|(m & _ & ->)]; [discriminate|].
  reflexivity.
Qed.

(** X9: in a run without [--empty] whose two revisions resolve, the
    only file [main] writes is [metadata] in the output directory, and
    it has exactly two lines, [From-sha:] with the resolved "from" hash
    and [To-sha:] with the resolved "to" hash, whatever the repository
    printed and whatever the arguments are. *)
Theorem resolved_run_metadata_two_lines args unknown w machine w1 t1
    to_sha rest from_rev from_sha rest' :
  main_machine (args, unknown) w = (Return (Some machine), w1, t1) ->
  let to_command :=
    rev_parse_command (update_repo_of args) (to_rev_of args machine) in
  let from_command := rev_parse_command (Args.repo args) from_rev in
  output_lines to_command w1 = to_sha :: rest ->
  from_rev_of args machine = Some from_rev ->
  output_lines from_command (world_after to_command w1) = from_sha :: rest' ->
  exists w' t text,
    main (args, unknown) w = (Return tt, w', t)
    /\ writes t = [(Py.path_join (Args.output args) "metadata", text)]
    /\ Py.splitlines text = ["From-sha:" ++ from_sha; "To-sha:" ++ to_sha].
Proof.
  intros Hm to_command from_command Hto Hrev Hfrom.
  rewrite (main_with_machine _ _ _ _ _ Hm). simpl fst.
  pose proof (main_resolve_full args machine w1) as Hcases.
  cbv zeta in Hcases. fold to_command in Hcases.
  rewrite Hto, Hrev in Hcases. fold from_command in Hcases.
  rewrite Hfrom in Hcases.
  destruct Hcases as (w' & t & -> & _ & Hw & _).
  pose proof (main_machine_writes_nothing _ _ _ _ _ _ Hm) as Hw1.
  do 3 eexists. split; [reflexivity|]. split.
  - rewrite !writes_app, Hw1, Hw. reflexivity.
  - apply metadata_text_lines.
    + apply (output_lines_single_line from_command (world_after to_command w1)).
      rewrite Hfrom. now left.
    + apply (output_lines_single_line to_command w1). rewrite Hto. now left.
Qed.

(** X10: with [--empty] and the machine name detected from the
    repository, a run whose "to" revision resolves writes a [metadata]
    file of exactly two lines, [From-sha:] with the machine name and
    [To-sha:] with the resolved hash. *)
Theorem empty_run_metadata_names_machine args unknown w machine w1 t1
    to_sha rest :
  Args.empty args = true ->
  Args.machine args = None ->
  main_machine (args, unknown) w = (Return (Some machine), w1, t1) ->
  output_lines
    (rev_parse_command (update_repo_of args) (to_rev_of args machine)) w1
  = to_sha :: rest ->
  exists w' t text,
    main (args, unknown) w = (Return tt, w', t)
    /\ writes t = [(Py.path_join (Args.output args) "metadata", text)]
    /\ Py.splitlines text = ["From-sha:" ++ machine; "To-sha:" ++ to_sha].
Proof.
  intros Hempty Hnone Hm Hto.
  rewrite (main_with_machine _ _ _ _ _ Hm). simpl fst.
  pose proof (main_resolve_full args machine w1) as Hcases.
  cbv zeta in Hcases. rewrite Hto in Hcases.
  unfold from_rev_of in Hcases. rewrite Hempty in Hcases.
  destruct Hcases as (w' & t & -> & _ & Hw & _).
  pose proof (main_machine_writes_nothing _ _ _ _ _ _ Hm) as Hw1.
  do 3 eexists. split; [reflexivity|]. split.
  - rewrite !writes_app, Hw1, Hw. reflexivity.
  - apply metadata_text_lines.
    + now apply (main_machine_detected_single_line args unknown w machine w1 t1).
    + apply (output_lines_single_line
               (rev_parse_command (update_repo_of args) (to_rev_of args machine))
               w1).
      rewrite Hto. now left.
Qed.

(** X11: revision expressions given on the command line are used as
    they are: without [--empty], with [--to_sha] and [--from_sha], the
    script resolves the first in the update repository and the second
    in the source repository, whatever the machine name is and whether
    or not the two repositories are the same. *)
Theorem explicit_revisions_verbatim args unknown w machine w1 t1
    to_rev from_rev to_sha rest :
  Args.empty args = false ->
  Args.to_sha args = Some to_rev ->
  Args.from_sha args = Some from_rev ->
  main_machine (args, unknown) w = (Return (Some machine), w1, t1) ->
  output_lines (rev_parse_command (update_repo_of args) to_rev) w1
  = to_sha :: rest ->
  exists r w' t more,
    main (args, unknown) w = (r, w', t)
    /\ commands t
       = (commands t1
          ++ [rev_parse_command (update_repo_of args) to_rev;
              rev_parse_command (Args.repo args) from_rev]
          ++ more)%list.
Proof.
  intros Hempty Hto_arg Hfrom_arg Hm Hto.
  rewrite (main_with_machine _ _ _ _ _ Hm). simpl fst.
  pose proof (main_resolve_cases args machine w1) as Hcases.
  cbv zeta in Hcases.
  assert (Ht : to_rev_of args machine = to_rev)
    by (unfold to_rev_of; now rewrite Hto_arg).
  assert (Hf : from_rev_of args machine = Some from_rev)
    by (unfold from_rev_of; now rewrite Hempty, Hfrom_arg).
  rewrite Ht, Hto, Hf in Hcases.
  destruct (output_lines (rev_parse_command (Args.repo args) from_rev) _).
  - rewrite Hcases. do 4 eexists. split; [reflexivity|].
    rewrite !commands_app, !commands_execute_events.
    instantiate (1 := []). reflexivity.
  - destruct Hcases as (w' & t & -> & Hc).
    do 4 eexists. split; [reflexivity|].
    rewrite !commands_app, !commands_execute_events, Hc. reflexivity.
Qed.

End SuccessfulRuns.

(* ================================================================= *)
(** ** The values read from the output of the repository *)

Lemma split_words s : Forall (fun word => is_word word = true) (Py.split s).
Proof.
  induction s as [|c rest IH]; [constructor|].
  cbn [Py.split].
  destruct (Py.isspace c) eqn:Hc; [exact IH|].
  assert (Hone : is_word (String c EmptyString) = true)
    by (unfold is_word; simpl; now rewrite Hc).
  destruct rest as [|c' rest']; [now repeat constructor|].
  destruct (Py.isspace c') eqn:Hc'; [now constructor|].
  destruct (Py.split (String c' rest')) as [|word words].
  - now repeat constructor.
  - inversion IH as [|? ? Hword Hwords]; subst.
    constructor; [|exact Hwords].
    unfold is_word in *. simpl. rewrite Hc. simpl.
    apply andb_true_iff in Hword. tauto.
Qed.

Lemma rstrip_idempotent s : Py.rstrip (Py.rstrip s) = Py.rstrip s.
Proof.
  induction s as [|c rest IH]; [reflexivity|].
  cbn [Py.rstrip].
  destruct (Py.is_empty (Py.rstrip rest) && Py.isspace c) eqn:H;
    [reflexivity|].
  cbn [Py.rstrip]. now rewrite IH, H.
Qed.

(** What [str.strip] returns has no whitespace at either end. *)
Lemma strip_idempotent s : Py.strip (Py.strip s) = Py.strip s.
Proof.
  unfold Py.strip.
  assert (H : Py.lstrip s = EmptyString
              \/ exists c r, Py.lstrip s = String c r /\ Py.isspace c = false).
  { induction s as [|c rest IH]; [now left|].
    cbn [Py.lstrip]. destruct (Py.isspace c) eqn:Hc; [exact IH|].
    right. now exists c, rest. }
  destruct H as [->|(c & r & -> & Hc)]; [reflexivity|].
  cbn [Py.rstrip]. rewrite Hc, andb_false_r.
  cbn [Py.lstrip]. rewrite Hc.
  cbn [Py.rstrip]. rewrite rstrip_idempotent. now rewrite Hc, andb_false_r.
Qed.

(** What [s.split(sep, 1)] cuts: the first occurrence of [sep]. *)
Lemma split_once_spec sep s before rest :
  Py.split_once sep s = Some (before, rest) ->
  s = before ++ String sep rest /\ Py.contains sep before = false.
Proof.
  revert before. induction s as [|c s IH]; intros before; [discriminate|].
  cbn [Py.split_once].
  destruct (Ascii.eqb_spec c sep) as [->|Hne].
  - intros H. inversion H. now split.
  - destruct (Py.split_once sep s) as [[a b]|]; [|discriminate].
    intros H. inversion H; subst.
    destruct (IH a eq_refl) as [-> Hc]. split; [reflexivity|].
    unfold Py.contains in *. simpl. rewrite Hc.
    destruct (Ascii.eqb_spec sep c); [congruence|reflexivity].
Qed.

(** What holds of the values the loop starts with and of every value a
    line of the field gives holds of all the values it ends with. *)
Lemma for_line_in_output_forall (P : string -> Prop) data output values result :
  Forall P values ->
  (forall line v, In line output -> Py.startswith line data = true ->
                  extract_value data line = Return v -> P v) ->
  for_line_in_output data output values = Return result ->
  Forall P result.
Proof.
  revert values. induction output as [|line rest IH]; intros values Hv Hp.
  - simpl. intros H. inversion H. now subst.
  - cbn [for_line_in_output].
    destruct (Py.startswith line data) eqn:Hs.
    + destruct (extract_value data line) as [v|e] eqn:He; [|discriminate].
      apply IH.
      * apply Forall_app. split; [exact Hv|].
        constructor; [|constructor].
        apply (Hp line v); auto. now left.
      * intros l v' Hl. apply Hp. now right.
    + apply IH; [exact Hv|]. intros l v' Hl. apply Hp. now right.
Qed.

Lemma rstrip_empty s : Py.rstrip s = EmptyString <-> all_space s = true.
Proof.
  unfold all_space. induction s as [|c rest IH]; [tauto|].
  cbn [Py.rstrip list_ascii_of_string forallb].
  destruct (Py.rstrip rest) eqn:Hr; simpl.
  - destruct (Py.isspace c); simpl; [|split; discriminate].
    split; [intros _; now apply IH|reflexivity].
  - split; [discriminate|].
    intros H. apply andb_true_iff in H. destruct H as [_ H].
    apply IH in H. discriminate.
Qed.

Lemma splitlines_nil s : Py.splitlines s = [] <-> s = EmptyString.
Proof.
  destruct s as [|c rest]; [tauto|].
  cbn [Py.splitlines].
  destruct (Py.islinebreak c); [split; discriminate|].
  destruct (Py.splitlines rest); split; discriminate.
Qed.

Lemma digits_single_line d : single_line (NilEmpty.string_of_uint d) = true.
Proof. induction d; simpl; auto. Qed.

Section Values.

Context {World : Type} {os : OS World}.

(** X12: for a field other than [Date], every value the log helper
    returns is a word: not empty and without whitespace.  This holds of
    the commit hashes and of the versions. *)
Theorem log_values_are_words repo machine data w values :
  String.eqb data "Date" = false ->
  fst (fst (_get_data_from_repo repo machine data w)) = Return (Some values) ->
  Forall (fun v => is_word v = true) values.
Proof.
  intros Hd. rewrite get_data_run. simpl.
  destruct (for_line_in_output data _ []) as [vs|e] eqn:Hrun; [|discriminate].
  intros H.
  assert (vs = values) as -> by (destruct vs; [discriminate|now inversion H]).
  refine (for_line_in_output_forall _ _ _ _ _ (Forall_nil _) _ Hrun).
  intros line v _ _. unfold extract_value. rewrite Hd.
  pose proof (split_words line) as Hw.
  destruct (Py.split line) as [|x [|y l]]; try discriminate.
  intros Hv. inversion Hv; subst.
  inversion Hw as [|? ? _ Hw']; subst. now inversion Hw'.
Qed.

(** X13: every date the log helper returns is the text after the first
    colon of a log line that starts with [Date], colons of the time of
    day included, without the whitespace at its two ends. *)
Theorem log_dates_are_stripped repo machine w values :
  fst (fst (_get_date_from_repo repo machine w)) = Return (Some values) ->
  Forall (fun v =>
            Py.strip v = v
            /\ exists line before rest,
                 In line (output_lines (log_command repo machine) w)
                 /\ Py.startswith line "Date" = true
                 /\ line = before ++ ":" ++ rest
                 /\ Py.contains ":"%char before = false
                 /\ v = Py.strip rest)
         values.
Proof.
  unfold _get_date_from_repo. rewrite get_data_run. simpl.
  destruct (for_line_in_output "Date" _ []) as [vs|e] eqn:Hrun; [|discriminate].
  intros H.
  assert (vs = values) as -> by (destruct vs; [discriminate|now inversion H]).
  refine (for_line_in_output_forall _ _ _ _ _ (Forall_nil _) _ Hrun).
  intros line v Hin Hs. unfold extract_value. simpl.
  destruct (Py.split_once ":" line) as [[before rest]|] eqn:Hsplit;
    [|discriminate].
  intros Hv. inversion Hv; subst.
  apply split_once_spec in Hsplit. destruct Hsplit as [Hline Hc].
  split; [apply strip_idempotent|].
  exists line, before, rest. auto.
Qed.

(** X14: a revision expression resolves exactly when [rev-parse] prints
    something that is not whitespace; blank output, whatever its
    length, counts as not found.  What it resolves to is the first line
    of the output and has no line boundary in it. *)
Theorem rev_parse_resolves_printed_text repo rev w :
  (fst (fst (_rev_parse_in_repo repo (Some rev) w)) = Return None
   <-> all_space (stdout_of (rev_parse_command repo rev) w) = true)
  /\ (forall sha,
        fst (fst (_rev_parse_in_repo repo (Some rev) w)) = Return (Some sha) ->
        hd_error (output_lines (rev_parse_command repo rev) w) = Some sha
        /\ single_line sha = true).
Proof.
  rewrite rev_parse_some. simpl. split.
  - rewrite <- rstrip_empty, <- splitlines_nil. unfold output_lines.
    destruct (Py.splitlines _); simpl; split; congruence.
  - intros sha H. inversion H as [Hh]. split; [reflexivity|].
    unfold output_lines in *.
    pose proof (splitlines_single_line
                  (Py.rstrip (stdout_of (rev_parse_command repo rev) w))) as HF.
    destruct (Py.splitlines _) as [|l ls]; [discriminate|].
    inversion Hh; subst. now inversion HF.
Qed.

(** X15: a timeout that the subprocess meets changes nothing: the
    command is printed, the subprocess is started and runs to its end,
    its standard error is printed, its standard output is returned, and
    nothing is killed. *)
Theorem execute_command_within_timeout command t w :
  (duration (spawn command w) <= t)%N ->
  _execute_command command (Some t) w
  = (Return (stdout_of command w), world_after command w,
     [Printed (Py.repr_list command); Popen command;
      Printed (stderr_of command w)]).
Proof.
  intros H. rewrite execute_command_in_time by exact H.
  apply execute_command_no_timeout.
Qed.

End Values.

(** X16: a warning whose message, category and file name have no line
    boundary is formatted as one line, [file:line: category: message]. *)
Theorem warning_is_one_line message category filename lineno :
  single_line message = true ->
  single_line category = true ->
  single_line filename = true ->
  Py.splitlines (warning_on_one_line message category filename lineno)
  = [filename ++ ":" ++ NilEmpty.string_of_uint (N.to_uint lineno) ++ ": "
     ++ category ++ ": " ++ message].
Proof.
  intros Hm Hc Hf. unfold warning_on_one_line, nl.
  replace (filename ++ ":" ++ NilEmpty.string_of_uint (N.to_uint lineno) ++ ": "
           ++ category ++ ": " ++ message ++ String Py.LF EmptyString)
    with ((filename ++ ":" ++ NilEmpty.string_of_uint (N.to_uint lineno) ++ ": "
           ++ category ++ ": " ++ message) ++ String Py.LF EmptyString)
    by (now rewrite !string_app_assoc).
  rewrite splitlines_line; [reflexivity|].
  rewrite !single_line_app, Hf, Hc, Hm, digits_single_line. reflexivity.
Qed.

(* ================================================================= *)
(** ** Defaults of the command line *)

Section Defaults.

Context {World : Type} {os : OS World}.

(** X17: without [--to_sha], the "to" revision expression is the
    machine name: the first command after the machine is known is its
    [rev-parse] in the update repository, with [--empty] or without,
    and whatever [--from_sha] is. *)
Theorem default_to_revision args unknown w machine w1 t1 :
  Args.to_sha args = None ->
  main_machine (args, unknown) w = (Return (Some machine), w1, t1) ->
  exists r w' t more,
    main (args, unknown) w = (r, w', t)
    /\ commands t
       = (commands t1
          ++ rev_parse_command (update_repo_of args) machine :: more)%list.
Proof.
  intros Hto Hm.
  rewrite (main_with_machine _ _ _ _ _ Hm). simpl fst.
  pose proof (main_resolve_cases args machine w1) as Hcases.
  cbv zeta in Hcases.
  assert (Ht : to_rev_of args machine = machine)
    by (unfold to_rev_of; now rewrite Hto).
  rewrite Ht in Hcases.
  destruct (output_lines _ w1) as [|to_sha rest].
  { rewrite Hcases. do 4 eexists. split; [reflexivity|].
    rewrite !commands_app, commands_execute_events.
    instantiate (1 := []). reflexivity. }
  destruct (from_rev_of args machine) as [from_rev|].
  - destruct (output_lines (rev_parse_command (Args.repo args) from_rev) _).
    + rewrite Hcases. do 4 eexists. split; [reflexivity|].
      rewrite !commands_app, !commands_execute_events. reflexivity.
    + destruct Hcases as (w' & t & -> & Hc).
      do 4 eexists. split; [reflexivity|].
      rewrite !commands_app, !commands_execute_events. reflexivity.
  - destruct Hcases as (w' & t & -> & Hc).
    do 4 eexists. split; [reflexivity|].
    rewrite !commands_app, !commands_execute_events. reflexivity.
Qed.

(** X18: leaving [--update_repo] out is the same as giving the source
    repository for it: the two runs of [main] end the same way, in the
    same world, with the same events. *)
Theorem omitted_update_repo_is_repo args unknown w :
  Args.update_repo args = None ->
  main (args, unknown) w
  = main (with_update_repo args (Args.repo args), unknown) w.
Proof.
  intros H. rewrite 2 main_views.
  assert (Hm : main_machine (with_update_repo args (Args.repo args), unknown) w
               = main_machine (args, unknown) w).
  { unfold main_machine, bind.
    rewrite 2 parse_args_run. simpl Args.repo.
    unfold bind. rewrite ensure_is_directory_total. unfold after, ret.
    destruct (negb (path_exists (Args.repo args) w)); [reflexivity|].
    destruct (negb (path_is_dir (Args.repo args) w)); reflexivity. }
  unfold bind. rewrite Hm.
  destruct (main_machine (args, unknown) w) as [[[[machine|]|e] w1] t1];
    try reflexivity.
  simpl fst.
  assert (Hr : main_resolve (with_update_repo args (Args.repo args)) machine w1
               = main_resolve args machine w1).
  { unfold main_resolve, main_resolve_from, main_generate,
      to_rev_of, from_rev_of, update_repo_of, with_update_repo.
    cbn [Args.repo Args.output Args.update_repo Args.machine Args.to_sha
         Args.from_sha Args.generate_bin Args.empty].
    rewrite H. reflexivity. }
  now rewrite Hr.
Qed.

End Defaults.

(* ================================================================= *)
(** ** Concrete runs for the properties above *)

Lemma invalid_repo_stops_before_any_effect_witness :
  exists t,
    main (os := scripted (answer_of scenario) 10 (fun _ => false))
      (scenario_args, ["--verbose"]) []
    = (Raise (ValueError (dq ++ "/repo" ++ dq ++ " does not exist")), [], t)
    /\ commands t = [] /\ writes t = [] /\ created t = [].
Proof.
  exact (invalid_repo_stops_before_any_effect
           (os := scripted (answer_of scenario) 10 (fun _ => false))
           scenario_args ["--verbose"] [] eq_refl).
Defined.


Lemma failed_run_writes_nothing_witness :
  writes (snd (main (os := scripted_table
                             [(refs_command "/repo", "myboard" ++ nl)])
                 (scenario_args, []) [])) = []
  /\ forallb is_query
       (commands (snd (main (os := scripted_table
                                     [(refs_command "/repo", "myboard" ++ nl)])
                         (scenario_args, []) []))) = true.
Proof.
  apply (failed_run_writes_nothing
           (os := scripted_table [(refs_command "/repo", "myboard" ++ nl)])
           scenario_args [] [] (SystemExit 1) []
           (snd (main (os := scripted_table
                             [(refs_command "/repo", "myboard" ++ nl)])
                   (scenario_args, []) []))).
  - reflexivity.
  - intros [f H]. discriminate.
Defined.

Lemma successful_run_commands_witness :
  exists w' t,
    main (os := scripted_table scenario)
      (with_update_repo scenario_args "/update", []) [] = (Return tt, w', t)
    /\ commands t
       = [refs_command "/repo";
          rev_parse_command "/update" "myboard";
          rev_parse_command "/repo" "myboard";
          pull_local_command "/update" "/repo" "fff999";
          static_delta_command "/repo" "/out" "fff999" ["--from"; "abc123"];
          tar_command "/out"; gzip_command "/out"].
Proof.
  exact (successful_run_commands (os := scripted_table scenario)
           (with_update_repo scenario_args "/update") [] [] "myboard" []
           (snd (main_machine (os := scripted_table scenario)
                   (with_update_repo scenario_args "/update", []) []))
           "fff999" [] "myboard" "abc123" [] eq_refl eq_refl eq_refl eq_refl).
Defined.

Lemma resolved_run_metadata_two_lines_witness :
  exists w' t text,
    main (os := scripted_table scenario) (scenario_args, []) []
    = (Return tt, w', t)
    /\ writes t = [("/out/metadata", text)]
    /\ Py.splitlines text = ["From-sha:def456"; "To-sha:abc123"].
Proof.
  exact (resolved_run_metadata_two_lines (os := scripted_table scenario)
           scenario_args [] [] "myboard" []
           (snd (main_machine (os := scripted_table scenario)
                   (scenario_args, []) []))
           "abc123" [] "myboard^" "def456" [] eq_refl eq_refl eq_refl eq_refl).
Defined.

Lemma empty_run_metadata_names_machine_witness :
  exists w' t text,
    main (os := scripted_table scenario) (with_empty scenario_args None, []) []
    = (Return tt, w', t)
    /\ writes t = [("/out/metadata", text)]
    /\ Py.splitlines text = ["From-sha:myboard"; "To-sha:abc123"].
Proof.
  exact (empty_run_metadata_names_machine (os := scripted_table scenario)
           (with_empty scenario_args None) [] [] "myboard" []
           (snd (main_machine (os := scripted_table scenario)
                   (with_empty scenario_args None, []) []))
           "abc123" [] eq_refl eq_refl eq_refl eq_refl).
Defined.

Lemma explicit_revisions_verbatim_witness :
  exists r w' t more,
    main (os := scripted_table
                  ((rev_parse_command "/repo" "v2", "abc123" ++ nl) :: scenario))
      (with_revisions scenario_args "v2" "v1", []) [] = (r, w', t)
    /\ commands t
       = ([refs_command "/repo"; rev_parse_command "/repo" "v2";
           rev_parse_command "/repo" "v1"] ++ more)%list.
Proof.
  exact (explicit_revisions_verbatim
           (os := scripted_table
                    ((rev_parse_command "/repo" "v2", "abc123" ++ nl) :: scenario))
           (with_revisions scenario_args "v2" "v1") [] [] "myboard" []
           (snd (main_machine
                   (os := scripted_table
                            ((rev_parse_command "/repo" "v2", "abc123" ++ nl)
                             :: scenario))
                   (with_revisions scenario_args "v2" "v1", []) []))
           "v2" "v1" "abc123" [] eq_refl eq_refl eq_refl eq_refl eq_refl).
Defined.

Lemma log_values_are_words_witness :
  Forall (fun v => is_word v = true) ["abc123"; "def456"]
  /\ Forall (fun v => is_word v = true) ["2.1"; "2.0"].
Proof.
  split.
  - exact (log_values_are_words (os := scripted_table scenario_log)
             "/repo" "myboard" "commit" [] ["abc123"; "def456"]
             eq_refl eq_refl).
  - exact (log_values_are_words (os := scripted_table scenario_log)
             "/repo" "myboard" "Version" [] ["2.1"; "2.0"]
             eq_refl eq_refl).
Defined.

Lemma log_dates_are_stripped_witness :
  Forall (fun v =>
            Py.strip v = v
            /\ exists line before rest,
                 In line (output_lines (os := scripted_table scenario_log)
                            (log_command "/repo" "myboard") [])
                 /\ Py.startswith line "Date" = true
                 /\ line = before ++ ":" ++ rest
                 /\ Py.contains ":"%char before = false
                 /\ v = Py.strip rest)
         ["2021-03-04 10:20:30 +0000"; "2021-03-01 08:00:00 +0000"].
Proof.
  exact (log_dates_are_stripped (os := scripted_table scenario_log)
           "/repo" "myboard" []
           ["2021-03-04 10:20:30 +0000"; "2021-03-01 08:00:00 +0000"] eq_refl).
Defined.

Lemma rev_parse_resolves_printed_text_witness :
  fst (fst (_rev_parse_in_repo
              (os := scripted_table
                       [(rev_parse_command "/repo" "gone", nl ++ " " ++ nl)])
              "/repo" (Some "gone") []))
  = Return None.
Proof.
  apply (rev_parse_resolves_printed_text
           (os := scripted_table
                    [(rev_parse_command "/repo" "gone", nl ++ " " ++ nl)])
           "/repo" "gone" []).
  reflexivity.
Defined.

Lemma execute_command_within_timeout_witness :
  _execute_command (os := scripted_table scenario)
    (rev_parse_command "/repo" "myboard") (Some 10%N) []
  = (Return ("abc123" ++ nl), [],
     [Printed "['ostree', '--repo=/repo', 'rev-parse', 'myboard']";
      Popen (rev_parse_command "/repo" "myboard"); Printed EmptyString]).
Proof.
  apply (execute_command_within_timeout (os := scripted_table scenario)
           (rev_parse_command "/repo" "myboard") 10%N []).
  vm_compute. discriminate.
Defined.

Lemma warning_is_one_line_witness :
  Py.splitlines
    (warning_on_one_line "rev myboard not found in /repo" "UserWarning"
       "ostree-delta.py" 398)
  = ["ostree-delta.py:398: UserWarning: rev myboard not found in /repo"].
Proof.
  apply (warning_is_one_line "rev myboard not found in /repo" "UserWarning"
           "ostree-delta.py" 398); reflexivity.
Defined.

Lemma default_to_revision_witness :
  exists r w' t more,
    main (os := scripted_table scenario)
      (with_update_repo scenario_args "/update", []) [] = (r, w', t)
    /\ commands t
       = ([refs_command "/repo"]
          ++ rev_parse_command "/update" "myboard" :: more)%list.
Proof.
  exact (default_to_revision (os := scripted_table scenario)
           (with_update_repo scenario_args "/update") [] [] "myboard" []
           (snd (main_machine (os := scripted_table scenario)
                   (with_update_repo scenario_args "/update", []) []))
           eq_refl eq_refl).
Defined.

Lemma omitted_update_repo_is_repo_witness :
  main (os := scripted_table scenario) (scenario_args, []) []
  = main (os := scripted_table scenario)
      (with_update_repo scenario_args "/repo", []) [].
Proof.
  exact (omitted_update_repo_is_repo (os := scripted_table scenario)
           scenario_args [] [] eq_refl).
Defined.

(* ================================================================= *)
(** ** How detection reports and how [main] can fail *)

Section Failures.

Context {World : Type} {os : OS World}.

Lemma print_refs_exact output (w : World) :
  print_refs output w
  = (Return tt, w, map (fun ref => Printed (tab ++ tab ++ ref)) output).
Proof.
  induction output as [|ref rest IH]; [reflexivity|].
  cbn [print_refs]. erewrite bind_return by reflexivity. now rewrite IH.
Qed.

(** X19: when machine detection returns no machine it has printed,
    after the command and its standard error, the two header lines and
    then one line per ref that its loop left, in the order of the
    listing; every ref of the listing that does not start with [ostree]
    is among them.  When it returns a machine it prints nothing more
    than the command and its standard error. *)
Theorem detection_reports_candidates repo w :
  let left := remove_ostree_refs (output_lines (refs_command repo) w) in
  let report :=
    ([Printed ("Error:" ++ tab
               ++ "Could not determine the machine name from the repo");
      Printed (tab ++ "Possible values are:")]
     ++ map (fun ref => Printed (tab ++ tab ++ ref)) left)%list in
  (fst (fst (_determine_machine_from_repo repo w)) = Return None ->
   snd (_determine_machine_from_repo repo w)
   = (execute_events (refs_command repo) w ++ report)%list
   /\ forall ref,
        In ref (candidates (output_lines (refs_command repo) w)) ->
        In (Printed (tab ++ tab ++ ref)) report)
  /\ (forall machine,
        fst (fst (_determine_machine_from_repo repo w)) = Return (Some machine) ->
        snd (_determine_machine_from_repo repo w)
        = execute_events (refs_command repo) w).
Proof.
  intros left report.
  pose proof (for_ref_in_output_candidates
                (List.length (output_lines (refs_command repo) w)) 0
                (output_lines (refs_command repo) w)) as Hc.
  fold (remove_ostree_refs (output_lines (refs_command repo) w)) in Hc.
  fold left in Hc.
  assert (Hrep : forall ref,
             In ref (candidates (output_lines (refs_command repo) w)) ->
             In (Printed (tab ++ tab ++ ref)) report).
  { intros ref Hin. rewrite <- Hc in Hin.
    apply filter_In in Hin. destruct Hin as [Hin _].
    unfold report. apply in_or_app. right.
    apply (in_map (fun ref => Printed (tab ++ tab ++ ref))), Hin. }
  unfold _determine_machine_from_repo.
  erewrite bind_return by apply execute_command_no_timeout.
  fold (refs_command repo).
  change (Py.splitlines (Py.rstrip (stdout_of (refs_command repo) w)))
    with (output_lines (refs_command repo) w).
  fold left. subst report.
  destruct left as [|m [|m' l]].
  2: { split; [discriminate|]. intros machine _. reflexivity. }
  all: do 2 (erewrite bind_return by reflexivity).
  all: erewrite bind_return by apply print_refs_exact.
  all: split; [|discriminate].
  all: intros _; split; [|exact Hrep].
  all: simpl; rewrite ?app_nil_r; reflexivity.
Qed.

(** X21: when [--machine] is not given, [--repo] is a directory and the
    repository lists two or more refs that do not start with [ostree],
    the script exits with status 2 after the listing of the refs, its
    only command, and writes nothing. *)
Theorem ambiguous_repository_exits_2 args unknown w :
  Args.machine args = None ->
  path_exists (Args.repo args) w = true ->
  path_is_dir (Args.repo args) w = true ->
  (2 <= List.length
          (candidates
             (output_lines (refs_command (Args.repo args))
                (makedirs (Args.output args) w))))%nat ->
  exists w' t,
    script (args, unknown) w = (Raise (SystemExit 2), w', t)
    /\ commands t = [refs_command (Args.repo args)]
    /\ writes t = [].
Proof.
  intros Hnone He Hd Hmany.
  assert (Hm : exists w1 t1,
             main_machine (args, unknown) w = (Return None, w1, t1)
             /\ commands t1 = [refs_command (Args.repo args)]
             /\ writes t1 = []).
  { unfold main_machine.
    erewrite bind_return by (apply parse_args_directory; assumption).
    erewrite bind_return by reflexivity.
    rewrite Hnone.
    match goal with
    | |- context [_determine_machine_from_repo ?r ?w0] =>
        destruct (determine_machine_quiet r w0) as (m & t & Hrun & Hc & Hw & _);
        pose proof (determine_machine_result r w0) as Hres
    end.
    rewrite Hrun in Hres. simpl in Hres.
    pose proof (for_ref_in_output_candidates
                  (List.length (output_lines (refs_command (Args.repo args))
                                  (makedirs (Args.output args) w))) 0
                  (output_lines (refs_command (Args.repo args))
                     (makedirs (Args.output args) w))) as Hcand.
    fold (remove_ostree_refs
            (output_lines (refs_command (Args.repo args))
               (makedirs (Args.output args) w))) in Hcand.
    assert (m = None) as ->.
    { destruct (remove_ostree_refs _) as [|x [|y l]];
        try (inversion Hres; reflexivity).
      rewrite <- Hcand in Hmany. simpl in Hmany.
      destruct (is_candidate x); simpl in Hmany; lia. }
    rewrite Hrun. do 2 eexists. split; [reflexivity|].
    rewrite commands_app, writes_app. simpl. rewrite Hc, Hw.
    destruct (0 <? List.length unknown)%nat; split; reflexivity. }
  destruct Hm as (w1 & t1 & Hm & Hc & Hw).
  rewrite script_of_main, (main_no_machine _ _ _ _ Hm).
  do 2 eexists. split; [reflexivity|].
  now rewrite app_nil_r.
Qed.

End Failures.

Lemma detection_reports_candidates_witness :
  snd (_determine_machine_from_repo
         (os := scripted_table
                  [(refs_command "/repo", "board-a" ++ nl ++ "board-b" ++ nl)])
         "/repo" [])
  = [Printed "['ostree', '--repo=/repo', 'refs']";
     Popen (refs_command "/repo"); Printed EmptyString;
     Printed ("Error:" ++ tab
              ++ "Could not determine the machine name from the repo");
     Printed (tab ++ "Possible values are:");
     Printed (tab ++ tab ++ "board-a"); Printed (tab ++ tab ++ "board-b")].
Proof.
  exact (proj1 (proj1 (detection_reports_candidates
                         (os := scripted_table
                                  [(refs_command "/repo",
                                    "board-a" ++ nl ++ "board-b" ++ nl)])
                         "/repo" [])
                  eq_refl)).
Defined.


Lemma ambiguous_repository_exits_2_witness :
  exists w' t,
    script (os := scripted_table
                    [(refs_command "/repo", "board-a" ++ nl ++ "board-b" ++ nl)])
      (scenario_args, []) []
    = (Raise (SystemExit 2), w', t)
    /\ commands t = [refs_command "/repo"]
    /\ writes t = [].
Proof.
  apply (ambiguous_repository_exits_2
           (os := scripted_table
                    [(refs_command "/repo", "board-a" ++ nl ++ "board-b" ++ nl)])
           scenario_args [] []); reflexivity.
Defined.
